(** * Aurora Vision inverter adapter: a shallow embedding

    Source: [quartz_solar_forecast/inverters/auroravision.py].

    The module is embedded function by function:
    - [process_aurora_data]    : the reshaping of the decoded payload;
    - [authenticate_aurora]    : the token exchange, writing [os.environ];
    - [get_aurora_vision_data] : the production query with its 401 branch.

    Modelling choices.
    - Python values that reach the code are JSON values ([json]); dicts are
      kept as the list of their items in insertion order.
    - Characters are Rocq's 8-bit [ascii], read as the code points
      U+0000..U+00FF; on that range the class [\d] is ['0'..'9'].
    - Floats are the kernel's binary64 numbers, so [/ 24.0] is IEEE division.
    - Python exceptions are values of [exn]; a computation returns a
      [result].  Global names are resolved at run time against the names the
      module binds ([module_globals]); a name that is not bound raises
      [NameError], as in Python.
    - [http.client] is modelled at the level of the exchange: [conn.request]
      followed by [conn.getresponse] hands a [Request] to the service and
      yields its [Response].  The service is an arbitrary function of the
      requests it has received.  Three things the library does before or
      around an exchange are part of the model: [HTTPSConnection(...)]
      builds the default SSL context, which opens the file named by
      [SSLKEYLOGFILE]; [conn.request] refuses a request whose text it
      cannot send ([InvalidURL], [UnicodeEncodeError], [ValueError]); and a
      second [getresponse] on a connection whose previous answer was kept
      alive and never read raises [ResponseNotReady].  Failures of the
      transport itself (name resolution, TLS, a broken socket) are given by
      the world: it says, for each request handed to the transport, whether
      an answer comes back or what is raised instead.
    - [os.environ] is a finite map from strings to strings; it refuses
      values that are not [str] and strings that hold a null character.
    - [pd.DataFrame(records)] is the list of its records, in order.
    - The effectful functions run in a state monad over [World], whose
      [trace] logs every request handed to the transport and every call of
      [authenticate_aurora]. *)

From Stdlib Require Import ZArith NArith Ascii String List Floats Lia.
From stdpp Require Import base option list gmap strings pretty.

Set Warnings "-register-all".
Local Open Scope string_scope.
Local Open Scope Z_scope.

(** ** Python values, exceptions and results *)

Inductive json : Type :=
  | JNull
  | JBool (b : bool)
  | JInt (z : Z)
  | JFloat (f : float)
  | JStr (s : string)
  | JArr (items : list json)
  | JObj (fields : list (string * json)).

Inductive exn : Type :=
  | NameError (name : string)
  | KeyError (key : string)
  | TypeError
  | ValueError
  | AttributeError
  | OverflowError
  | UnicodeDecodeError
  | JSONDecodeError
  | UnicodeEncodeError
  | InvalidURL
  | ResponseNotReady
  | FileNotFoundError
  | PermissionError
  | Exception_ (msg : string).

Inductive result (A : Type) : Type :=
  | Ok (a : A)
  | Raise (e : exn).
Arguments Ok {A} a.
Arguments Raise {A} e.

(** Sequencing: an exception ends the computation.  The notations
    [x ← r; k] and [r ;; k] are those of stdpp's [mbind]. *)
#[global] Instance result_ret : MRet result := @Ok.
#[global] Instance result_bind : MBind result := fun A B k r =>
  match r with
  | Ok a => k a
  | Raise e => Raise e
  end.

(** The list comprehension: the element expression is evaluated entry by
    entry, left to right, and the first exception ends it. *)
Fixpoint comprehension {A B : Type} (f : A -> result B) (xs : list A)
  : result (list B) :=
  match xs with
  | [] => Ok []
  | x :: xs' =>
      match f x with
      | Raise e => Raise e
      | Ok y =>
          match comprehension f xs' with
          | Raise e => Raise e
          | Ok ys => Ok (y :: ys)
          end
      end
  end.

(** ** Name resolution *)

(** The names bound in the module when its body has run: one per [import]
    (lines 1-11), then the two classes and the three functions.  [base64],
    which line 36 uses, is not among them: the file has no [import base64]. *)
Definition module_globals : list string :=
  [ "http"; "os"; "Optional"; "pd"; "json";
    "datetime"; "timedelta"; "timezone";
    "AbstractInverter"; "Field"; "BaseSettings"; "SettingsConfigDict";
    "AuroraVisionSettings"; "AuroraVisionInverter";
    "authenticate_aurora"; "process_aurora_data"; "get_aurora_vision_data" ].

Definition bound (g : list string) (name : string) : bool :=
  existsb (String.eqb name) g.

Definition load_global (g : list string) (name : string) : result unit :=
  if bound g name then Ok tt else Raise (NameError name).

(** ** Dicts, subscripts, iteration *)

Fixpoint dict_get (key : string) (fields : list (string * json)) : option json :=
  match fields with
  | [] => None
  | (k, v) :: rest => if String.eqb key k then Some v else dict_get key rest
  end.

(** [obj.get(key, default)]: only a dict has the method. *)
Definition py_get (obj : json) (key : string) (default : json) : result json :=
  match obj with
  | JObj fields =>
      match dict_get key fields with
      | Some v => Ok v
      | None => Ok default
      end
  | _ => Raise AttributeError
  end.

(** [obj[key]] for a string key. *)
Definition py_subscript (obj : json) (key : string) : result json :=
  match obj with
  | JObj fields =>
      match dict_get key fields with
      | Some v => Ok v
      | None => Raise (KeyError key)
      end
  | _ => Raise TypeError
  end.

Definition chars (s : string) : list json :=
  map (fun c => JStr (String c EmptyString)) (list_ascii_of_string s).

(** [for entry in obj]: a list yields its items, a dict its keys, a string
    its characters; nothing else is iterable. *)
Definition py_iter (obj : json) : result (list json) :=
  match obj with
  | JArr items => Ok items
  | JObj fields => Ok (map (fun kv => JStr (fst kv)) fields)
  | JStr s => Ok (chars s)
  | _ => Raise TypeError
  end.

(** ** [datetime.strptime(_, "%Y%m%d")] *)

Inductive tz : Type := utc.

Record datetime : Type := mk_datetime {
  year : Z; month : Z; day : Z;
  hour : Z; minute : Z; second : Z; microsecond : Z;
  tzinfo : option tz
}.

Definition replace_tzinfo (d : datetime) (t : tz) : datetime :=
  {| year := year d; month := month d; day := day d;
     hour := hour d; minute := minute d; second := second d;
     microsecond := microsecond d; tzinfo := Some t |}.

Definition code (c : ascii) : Z := Z.of_N (N_of_ascii c).

(** A character class is a range of code points. *)
Definition cclass : Type := (Z * Z)%type.
Definition in_class (cl : cclass) (c : ascii) : bool :=
  (fst cl <=? code c) && (code c <=? snd cl).

Definition digit : cclass := (48, 57).          (* \d    *)
Definition range (lo hi : Z) : cclass := (48 + lo, 48 + hi).  (* [lo-hi] *)
Definition lit (d : Z) : cclass := range d d.
Definition space : cclass := (32, 32).

(** One alternative of a group is a sequence of classes; a group is the
    ordered list of its alternatives. *)
Fixpoint match_alt (a : list cclass) (s : list ascii)
  : option (list ascii * list ascii) :=
  match a with
  | [] => Some ([], s)
  | cl :: a' =>
      match s with
      | [] => None
      | c :: s' =>
          if in_class cl c then
            match match_alt a' s' with
            | Some (m, rest) => Some (c :: m, rest)
            | None => None
            end
          else None
      end
  end.

(** Backtracking match of a sequence of groups against a prefix of [s]:
    the alternatives of a group are tried in order, and one is kept only
    when the remaining groups match what follows it. *)
Fixpoint match_groups (gs : list (list (list cclass))) (s : list ascii)
  : option (list (list ascii) * list ascii) :=
  match gs with
  | [] => Some ([], s)
  | alts :: gs' =>
      (fix try (alts : list (list cclass)) :=
         match alts with
         | [] => None
         | a :: alts' =>
             match match_alt a s with
             | Some (m, rest) =>
                 match match_groups gs' rest with
                 | Some (ms, rest') => Some (m :: ms, rest')
                 | None => try alts'
                 end
             | None => try alts'
             end
         end) alts
  end.

(** The directives of [_strptime.TimeRE]:
    %Y = \d\d\d\d, %m = 1[0-2]|0[1-9]|[1-9],
    %d = 3[0-1]|[1-2]\d|0[1-9]|[1-9]| [1-9]. *)
Definition re_Y : list (list cclass) := [ [digit; digit; digit; digit] ].
Definition re_m : list (list cclass) :=
  [ [lit 1; range 0 2]; [lit 0; range 1 9]; [range 1 9] ].
Definition re_d : list (list cclass) :=
  [ [lit 3; range 0 1]; [range 1 2; digit]; [lit 0; range 1 9];
    [range 1 9]; [space; range 1 9] ].

(** [int(text)] on the text of a group (digits, possibly after a space). *)
Definition int_of (text : list ascii) : Z :=
  fold_left (fun acc c => if in_class digit c then 10 * acc + (code c - 48) else acc)
            text 0.

Definition is_leap (y : Z) : bool :=
  (y mod 4 =? 0) && (negb (y mod 100 =? 0) || (y mod 400 =? 0)).

Definition days_in_month (y m : Z) : Z :=
  if m =? 2 then (if is_leap y then 29 else 28)
  else if (m =? 4) || (m =? 6) || (m =? 9) || (m =? 11) then 30
  else 31.

(** The range check of the [date] constructor. *)
Definition valid_date (y m d : Z) : bool :=
  (1 <=? y) && (y <=? 9999) && (1 <=? m) && (m <=? 12) &&
  (1 <=? d) && (d <=? days_in_month y m).

Definition strptime_Ymd (s : string) : result datetime :=
  match match_groups [re_Y; re_m; re_d] (list_ascii_of_string s) with
  | Some ([ty; tm; td], []) =>
      let y := int_of ty in
      let m := int_of tm in
      let d := int_of td in
      if valid_date y m d then Ok (mk_datetime y m d 0 0 0 0 None)
      else Raise ValueError
  | _ => Raise ValueError
  end.

(** [datetime.strptime(v, "%Y%m%d")] on a Python value: the first argument
    must be a [str]. *)
Definition strptime (v : json) : result datetime :=
  match v with
  | JStr s => strptime_Ymd s
  | _ => Raise TypeError
  end.

(** ** [x / 24.0] *)

(** [float(z)] for a Python [int]: correctly rounded, and an [OverflowError]
    when the integer is beyond the range of a double. *)
Definition float_of_int (z : Z) : result float :=
  let f := SF2Prim (binary_normalize prec emax z 0 false) in
  if PrimFloat.is_infinity f then Raise OverflowError else Ok f.

Definition twenty_four : float := 24%float.

Definition truediv_24 (v : json) : result float :=
  match v with
  | JInt z =>
      match float_of_int z with
      | Ok f => Ok (PrimFloat.div f twenty_four)
      | Raise e => Raise e
      end
  | JBool b => Ok (PrimFloat.div (if b then 1%float else 0%float) twenty_four)
  | JFloat f => Ok (PrimFloat.div f twenty_four)
  | _ => Raise TypeError
  end.

(** ** [process_aurora_data] *)

Record record : Type := mk_record {
  timestamp : datetime;
  power_kw : float
}.

(** [pd.DataFrame(records)] *)
Inductive DataFrame : Type := mk_DataFrame (records : list record).

Section Transformation.
Variable g : list string.

(** The dict display of lines 55-58, for one [entry]. *)
Definition record_of_entry (entry : json) : result record :=
  load_global g "datetime" ;;
  date ← py_subscript entry "date";
  parsed ← strptime date;
  load_global g "timezone" ;;
  let ts := replace_tzinfo parsed utc in
  production ← py_get entry "dailyProduction" (JInt 0);
  power ← truediv_24 production;
  Ok (mk_record ts power).

Definition process_aurora_data (data_json : json) : result DataFrame :=
  result_field ← py_get data_json "result" (JArr []);
  entries ← py_iter result_field;
  records ← comprehension record_of_entry entries;
  load_global g "pd" ;;
  Ok (mk_DataFrame records).
End Transformation.

(** ** The world: [os.environ], the service, the trace *)

Record Settings : Type := mk_Settings {
  api_key : string;
  user_id : string;
  password : string;
  plant_id : string
}.

(** A [pd.Timestamp], seen through the only thing the code asks of it:
    [ts.strftime("%Y%m%d")]. *)
Record Timestamp : Type := mk_Timestamp { strftime_Ymd : string }.

Record Request : Type := mk_Request {
  method : string;
  host : string;
  url : string;
  headers : list (string * string)
}.

(** What [res.read()] holds, seen through [json.loads(data.decode("utf-8"))]. *)
Inductive Payload : Type :=
  | NotUtf8
  | NotJson
  | Json (j : json).

(** [will_close] is what [http.client] computes from the framing of the
    answer: [true] when the connection ends with this answer, [false] when
    it is kept alive. *)
Record Response : Type := mk_Response {
  status : Z;
  body : Payload;
  will_close : bool
}.

Inductive Event : Type :=
  | Authenticate            (* [authenticate_aurora] is entered *)
  | Send (req : Request).   (* a request is handed to the transport *)

(** Besides [os.environ] and the trace, the world holds what the code meets
    outside Python: [keylog path] is what opening [path] as the SSL key log
    raises, if it raises; [transport before req] is what connecting,
    sending [req] and receiving its answer raises, if it raises, the
    requests in [before] having been handed over earlier. *)
Record World : Type := Build_World {
  environ : gmap string string;
  trace : list Event;
  keylog : string -> option exn;
  transport : list Request -> Request -> option exn
}.

(** A world in which any key log file can be opened and the transport
    always delivers. *)
Definition mk_World (env : gmap string string) (t : list Event) : World :=
  Build_World env t (fun _ => None) (fun _ _ => None).

(** The vendor service answers a request knowing the requests before it. *)
Definition Service : Type := list Request -> Request -> Response.

Fixpoint sent (t : list Event) : list Request :=
  match t with
  | [] => []
  | Send req :: t' => req :: sent t'
  | Authenticate :: t' => sent t'
  end.

Fixpoint calls (t : list Event) : nat :=
  match t with
  | [] => O
  | Authenticate :: t' => S (calls t')
  | Send _ :: t' => calls t'
  end.

(** State and exceptions: what was done before an exception stays done. *)
Definition M (A : Type) : Type := World -> result A * World.

#[global] Instance M_ret : MRet M := fun A a w => (Ok a, w).
#[global] Instance M_bind : MBind M := fun A B k m w =>
  match m w with
  | (Ok a, w') => k a w'
  | (Raise e, w') => (Raise e, w')
  end.

Definition lift {A : Type} (r : result A) : M A := fun w => (r, w).
Definition raise {A : Type} (e : exn) : M A := lift (Raise e).

Definition log (e : Event) : M unit :=
  fun w => (Ok tt, Build_World (environ w) (trace w ++ [e]) (keylog w) (transport w)).

(** [os.getenv(key)] *)
Definition getenv (key : string) : M (option string) :=
  fun w => (Ok (environ w !! key), w).

Definition has_null (s : string) : bool :=
  existsb (fun c => code c =? 0) (list_ascii_of_string s).

(** [os.environ[key] = value]; yields the string stored.  A value that is
    not a [str] is a [TypeError], a string with a null character a
    [ValueError]; neither is stored. *)
Definition environ_setitem (key : string) (value : json) : M string :=
  match value with
  | JStr s =>
      if has_null s then raise ValueError
      else fun w => (Ok s, Build_World (<[key := s]> (environ w)) (trace w)
                                       (keylog w) (transport w))
  | _ => raise TypeError
  end.

(** *** [http.client.HTTPSConnection(host)] *)

Definition keylog_key : string := "SSLKEYLOGFILE".

(** The constructor builds the default SSL context, which opens the file
    that [SSLKEYLOGFILE] names when that variable is set and not empty. *)
Definition connection_refusal (w : World) : option exn :=
  match environ w !! keylog_key with
  | Some path => if String.eqb path "" then None else keylog w path
  | None => None
  end.

Definition HTTPSConnection : M unit := fun w =>
  match connection_refusal w with
  | Some e => (Raise e, w)
  | None => (Ok tt, w)
  end.

(** *** [conn.request("GET", url, headers=headers)] *)

(** [putrequest] refuses a URL with a character in [\x00-\x20\x7f], and
    encodes the request line as ASCII. *)
Definition disallowed_url_char (c : ascii) : bool :=
  (code c <=? 32) || (code c =? 127).

Definition non_ascii (c : ascii) : bool := 128 <=? code c.

(** [putheader] refuses a value in which a line feed is not followed by a
    space or a tab, or a carriage return not by a space, a tab or a line
    feed. *)
Fixpoint illegal_header_value (s : list ascii) : bool :=
  match s with
  | [] => false
  | c :: rest =>
      (if code c =? 10 then
         match rest with
         | [] => true
         | n :: _ => negb ((code n =? 32) || (code n =? 9))
         end
       else if code c =? 13 then
         match rest with
         | [] => true
         | n :: _ => negb ((code n =? 32) || (code n =? 9) || (code n =? 10))
         end
       else false)
      || illegal_header_value rest
  end.

(** What [conn.request] raises before anything is sent, if it raises. *)
Definition request_refusal (req : Request) : option exn :=
  if existsb disallowed_url_char (list_ascii_of_string (url req)) then
    Some InvalidURL
  else if existsb non_ascii (list_ascii_of_string (url req)) then
    Some UnicodeEncodeError
  else if existsb (fun h => illegal_header_value (list_ascii_of_string (snd h)))
                  (headers req) then
    Some ValueError
  else None.

(** [conn.request(...)] then [conn.getresponse()], on a new connection. *)
Definition exchange (service : Service) (req : Request) : M Response :=
  fun w =>
    match request_refusal req with
    | Some e => (Raise e, w)
    | None =>
        (match transport w (sent (trace w)) req with
         | Some e => Raise e
         | None => Ok (service (sent (trace w)) req)
         end,
         Build_World (environ w) (trace w ++ [Send req]) (keylog w) (transport w))
    end.

(** The same on the connection that gave [prev], which was not read: the
    request goes out, and when [prev] kept the connection alive
    [getresponse] raises [ResponseNotReady]. *)
Definition exchange_again (service : Service) (prev : Response) (req : Request)
  : M Response :=
  fun w =>
    match request_refusal req with
    | Some e => (Raise e, w)
    | None =>
        (match transport w (sent (trace w)) req with
         | Some e => Raise e
         | None =>
             if will_close prev then Ok (service (sent (trace w)) req)
             else Raise ResponseNotReady
         end,
         Build_World (environ w) (trace w ++ [Send req]) (keylog w) (transport w))
    end.

Definition json_loads (p : Payload) : result json :=
  match p with
  | NotUtf8 => Raise UnicodeDecodeError
  | NotJson => Raise JSONDecodeError
  | Json j => Ok j
  end.

(** ** [base64.b64encode(s.encode()).decode()] *)

Definition utf8_encode (s : string) : list Z :=
  flat_map (fun c => let n := code c in
                     if n <? 128 then [n] else [192 + n / 64; 128 + n mod 64])
           (list_ascii_of_string s).

Definition b64_alphabet : string :=
  "ABCDEFGHIJKLMNOPQRSTUVWXYZabcdefghijklmnopqrstuvwxyz0123456789+/".

Definition b64_char (n : Z) : ascii :=
  nth (Z.to_nat n) (list_ascii_of_string b64_alphabet) "="%char.

Fixpoint b64_groups (bs : list Z) : list ascii :=
  match bs with
  | [] => []
  | [a] =>
      [b64_char (a / 4); b64_char (a mod 4 * 16); "="%char; "="%char]
  | [a; b] =>
      [b64_char (a / 4); b64_char (a mod 4 * 16 + b / 16);
       b64_char (b mod 16 * 4); "="%char]
  | a :: b :: c :: rest =>
      b64_char (a / 4) :: b64_char (a mod 4 * 16 + b / 16)
      :: b64_char (b mod 16 * 4 + c / 64) :: b64_char (c mod 64)
      :: b64_groups rest
  end.

Definition b64encode (s : string) : string :=
  string_of_list_ascii (b64_groups (utf8_encode s)).

(** ** [authenticate_aurora] and [get_aurora_vision_data] *)

Definition token_key : string := "AURORA_ACCESS_TOKEN".
Definition aurora_host : string := "api.auroravision.net".

Definition auth_request (settings : Settings) : Request :=
  mk_Request "GET" aurora_host "/api/rest/authenticate"
    [ ("X-AuroraVision-ApiKey", api_key settings);
      ("Authorization",
       "Basic " +:+ b64encode (user_id settings +:+ ":" +:+ password settings)) ].

Definition query_url (settings : Settings) (ts : Timestamp) : string :=
  let start_date := strftime_Ymd ts in
  let end_date := start_date in
  "/api/rest/v1/plant/" +:+ plant_id settings +:+ "/dailyProduction?startDate="
    +:+ start_date +:+ "&endDate=" +:+ end_date.

Definition query_request (settings : Settings) (ts : Timestamp) (token : string)
  : Request :=
  mk_Request "GET" aurora_host (query_url settings ts)
    [ ("X-AuroraVision-Token", token) ].

Definition auth_failed (st : Z) : exn :=
  Exception_ ("Authentication failed with status " +:+ pretty st).

Definition fetch_failed (st : Z) : exn :=
  Exception_ ("Failed to fetch data: HTTP " +:+ pretty st).

(** [not token], for what [os.getenv] returns. *)
Definition falsy (token : option string) : bool :=
  match token with
  | None => true
  | Some s => String.eqb s ""
  end.

Section Adapter.
Variable g : list string.
Variable service : Service.

Definition authenticate_aurora (settings : Settings) : M string :=
  log Authenticate ;;
  lift (load_global g "http") ;;                         (* line 33 *)
  HTTPSConnection ;;
  lift (load_global g "base64") ;;                       (* line 36 *)
  res ← exchange service (auth_request settings);        (* lines 38-39 *)
  if negb (status res =? 200) then raise (auth_failed (status res))
  else
    lift (load_global g "json") ;;                       (* line 45 *)
    parsed ← lift (json_loads (body res));
    token ← lift (py_subscript parsed "result");
    lift (load_global g "os") ;;                         (* line 46 *)
    environ_setitem token_key token.

(** Lines 72-94: the query, once [token] is set. *)
Definition query_with_token (settings : Settings) (ts : Timestamp)
    (token : string) : M DataFrame :=
  lift (load_global g "http") ;;                         (* line 75 *)
  HTTPSConnection ;;
  res ← exchange service (query_request settings ts token);
  res ← (if status res =? 401 then
           lift (load_global g "authenticate_aurora") ;;
           token ← authenticate_aurora settings;
           exchange_again service res (query_request settings ts token)
         else mret res);
  if negb (status res =? 200) then raise (fetch_failed (status res))
  else
    lift (load_global g "json") ;;                       (* line 92 *)
    data_json ← lift (json_loads (body res));
    lift (load_global g "process_aurora_data") ;;
    lift (process_aurora_data g data_json).

Definition get_aurora_vision_data (settings : Settings) (ts : Timestamp)
  : M DataFrame :=
  lift (load_global g "os") ;;                           (* line 68 *)
  cached ← getenv token_key;
  token ← (if falsy cached then
             lift (load_global g "authenticate_aurora") ;;
             authenticate_aurora settings
           else mret (default "" cached));
  query_with_token settings ts token.
End Adapter.

(** What the fetcher makes of a 200 answer: lines 91-94. *)
Definition decode_and_process (g : list string) (res : Response)
  : result DataFrame :=
  load_global g "json" ;;
  data_json ← json_loads (body res);
  load_global g "process_aurora_data" ;;
  process_aurora_data g data_json.

(** The module with [base64] bound as well, as [import base64] would. *)
Definition globals_with_base64 : list string := "base64" :: module_globals.

(** ** A scenario: a stale token, a service that rejects it *)

Definition demo_settings : Settings := mk_Settings "key" "user" "pass" "p1".
Definition demo_day : Timestamp := mk_Timestamp "20240101".

Definition sample : json :=
  JObj [("result",
         JArr [JObj [("date", JStr "20240101"); ("dailyProduction", JInt 240)]])].

Definition has_header (name value : string) (req : Request) : bool :=
  existsb (fun h => String.eqb (fst h) name && String.eqb (snd h) value)
          (headers req).

(** Answers the authentication path with [auth], and the production query
    with the sample payload when the token is ["fresh"], with 401 otherwise;
    a 401 ends the connection. *)
Definition vendor (auth : Response) : Service := fun _ req =>
  if String.eqb (url req) "/api/rest/authenticate" then auth
  else if has_header "X-AuroraVision-Token" "fresh" req
       then mk_Response 200 (Json sample) false
       else mk_Response 401 NotJson true.

(** Answers the authentication path with [auth] and every production query
    with 401, ending the connection. *)
Definition rejecting (auth : Response) : Service := fun _ req =>
  if String.eqb (url req) "/api/rest/authenticate" then auth
  else mk_Response 401 NotJson true.

(** As [vendor], but a 401 keeps the connection alive. *)
Definition vendor_keep_alive (auth : Response) : Service := fun _ req =>
  if String.eqb (url req) "/api/rest/authenticate" then auth
  else if has_header "X-AuroraVision-Token" "fresh" req
       then mk_Response 200 (Json sample) false
       else mk_Response 401 NotJson false.

(** Answers everything with 503. *)
Definition unavailable : Service := fun _ _ => mk_Response 503 NotJson false.

Definition grants_fresh : Response :=
  mk_Response 200 (Json (JObj [("result", JStr "fresh")])) false.
Definition refuses : Response := mk_Response 403 NotJson false.

Definition no_token : World := mk_World ∅ [].
Definition stale_token : World := mk_World {[ token_key := "stale" ]} [].
Definition fresh_token : World := mk_World {[ token_key := "fresh" ]} [].
Definition empty_token : World := mk_World {[ token_key := "" ]} [].

(** A world whose [SSLKEYLOGFILE] names a file in a directory that does
    not exist. *)
Definition bad_keylog : World :=
  Build_World {[ token_key := "fresh"; keylog_key := "/nonexistent/keys.log" ]} []
              (fun _ => Some FileNotFoundError) (fun _ _ => None).

(** ** Traces *)

(** A computation only ever appends to the trace. *)
Definition grows {A : Type} (m : M A) : Prop :=
  forall w, exists evs, trace (m w).2 = (trace w ++ evs)%list.

(** What a run leaves behind: its result and the events it added are read
    off the pair it returns. *)
Definition outcome {A : Type} (m : M A) (w : World) : result A := (m w).1.
Definition after {A : Type} (m : M A) (w : World) : World := (m w).2.

(** The production queries and the authenticator calls among some events. *)
Definition is_query (settings : Settings) (ts : Timestamp) (e : Event) : bool :=
  match e with
  | Send req => String.eqb (url req) (query_url settings ts)
  | Authenticate => false
  end.

Definition is_call (e : Event) : bool :=
  match e with
  | Authenticate => true
  | Send _ => false
  end.

(** A computation adds at most [n] events that satisfy [P]. *)
Definition at_most (P : Event -> bool) (n : nat) {A : Type} (m : M A) : Prop :=
  forall w, exists evs,
    trace (m w).2 = (trace w ++ evs)%list /\ (length (filter P evs) <= n)%nat.

(** ** What the code makes of an entry's date *)

(** The exception an entry with an unusable [date] raises. *)
Definition date_error (entry : json) : exn :=
  match entry with
  | JObj fields =>
      match dict_get "date" fields with
      | None => KeyError "date"
      | Some (JStr _) => ValueError
      | Some _ => TypeError
      end
  | _ => TypeError
  end.

(** An entry the code cannot date: no [date], a [date] that is not a
    string, or one that [strptime] rejects. *)
Definition undatable (entry : json) : bool :=
  match entry with
  | JObj fields =>
      match dict_get "date" fields with
      | Some (JStr s) =>
          match strptime_Ymd s with Ok _ => false | Raise _ => true end
      | _ => true
      end
  | _ => true
  end.

(** ** The specification's notions, for comparison *)

(** A valid YYYYMMDD string: eight decimal digits that name a calendar
    day. *)
Definition valid_YYYYMMDD (s : string) : bool :=
  match list_ascii_of_string s with
  | [y1; y2; y3; y4; m1; m2; d1; d2] =>
      forallb (in_class digit) [y1; y2; y3; y4; m1; m2; d1; d2]
      && valid_date (int_of [y1; y2; y3; y4]) (int_of [m1; m2]) (int_of [d1; d2])
  | _ => false
  end.

(** The day a valid YYYYMMDD string names, at midnight. *)
Definition midnight_of (s : string) : datetime :=
  match list_ascii_of_string s with
  | [y1; y2; y3; y4; m1; m2; d1; d2] =>
      mk_datetime (int_of [y1; y2; y3; y4]) (int_of [m1; m2]) (int_of [d1; d2])
                  0 0 0 0 None
  | _ => mk_datetime 0 0 0 0 0 0 0 None
  end.

(** An entry whose [date] is absent or not a valid YYYYMMDD string. *)
Definition bad_date (entry : json) : bool :=
  match entry with
  | JObj fields =>
      match dict_get "date" fields with
      | Some (JStr s) => negb (valid_YYYYMMDD s)
      | _ => true
      end
  | _ => true
  end.

(** A JSON number that fits a double. *)
Definition is_number (v : json) : bool :=
  match v with
  | JInt z => match float_of_int z with Ok _ => true | Raise _ => false end
  | JFloat _ => true
  | _ => false
  end.

(** A well-formed entry: an object with a valid [date] and, when it has
    one, a numeric [dailyProduction]. *)
Definition well_formed_entry (entry : json) : bool :=
  match entry with
  | JObj fields =>
      match dict_get "date" fields with
      | Some (JStr s) =>
          valid_YYYYMMDD s &&
          match dict_get "dailyProduction" fields with
          | None => true
          | Some v => is_number v
          end
      | _ => false
      end
  | _ => false
  end.

(** ** Further notions *)

Definition rows_of (df : DataFrame) : list record :=
  match df with mk_DataFrame rs => rs end.

(** JSON values Python cannot iterate over: [None], a bool, a number. *)
Definition is_scalar (v : json) : bool :=
  match v with
  | JNull | JBool _ | JInt _ | JFloat _ => true
  | _ => false
  end.

(** JSON values Python cannot divide by a float: [None], a string, a list,
    a dict. *)
Definition not_dividable (v : json) : bool :=
  match v with
  | JNull | JStr _ | JArr _ | JObj _ => true
  | _ => false
  end.

(** A timestamp as the transformation builds them: a calendar day, at
    00:00:00.000000, in UTC. *)
Definition utc_midnight (d : datetime) : Prop :=
  valid_date (year d) (month d) (day d) = true /\
  hour d = 0 /\ minute d = 0 /\ second d = 0 /\ microsecond d = 0 /\
  tzinfo d = Some utc.

(** ** [AuroraVisionInverter] *)




(** ** What a computation may depend on, and what it may change *)

(** Two worlds with the same trace, the same file system, the same
    transport and the same [SSLKEYLOGFILE]. *)
Definition agree (w1 w2 : World) : Prop :=
  trace w1 = trace w2 /\
  (forall path, keylog w1 path = keylog w2 path) /\
  (forall before req, transport w1 before req = transport w2 before req) /\
  environ w1 !! keylog_key = environ w2 !! keylog_key.


(** [m] leaves the environment variable [key] as it found it. *)
Definition frames (key : string) {A : Type} (m : M A) : Prop :=
  forall w, environ (m w).2 !! key = environ w !! key.

(** * Properties *)

(** ** Results and comprehensions *)

Lemma load_global_bound (g : list string) (name : string) :
  bound g name = true -> load_global g name = Ok tt.
Proof. intros Hb. unfold load_global. now rewrite Hb. Qed.

Lemma comprehension_app {A B : Type} (f : A -> result B) (xs ys : list A)
    (rs : list B) :
  comprehension f xs = Ok rs ->
  comprehension f (xs ++ ys) =
    match comprehension f ys with
    | Ok rs' => Ok (rs ++ rs')%list
    | Raise e => Raise e
    end.
Proof.
  revert rs. induction xs as [|x xs IH]; intros rs H; simpl in *.
  - injection H as <-. now destruct (comprehension f ys).
  - destruct (f x) as [y|e]; [|discriminate].
    destruct (comprehension f xs) as [rs0|e]; [|discriminate].
    injection H as <-. rewrite (IH rs0 eq_refl).
    now destruct (comprehension f ys).
Qed.

(** The first entry that raises ends the comprehension with its exception. *)
Lemma comprehension_first_failure {A B : Type} (f : A -> result B)
    (pre post : list A) (x : A) (rs : list B) (e : exn) :
  comprehension f pre = Ok rs ->
  f x = Raise e ->
  comprehension f (pre ++ x :: post) = Raise e.
Proof.
  intros Hpre Hx. rewrite (comprehension_app f pre (x :: post) rs Hpre).
  simpl. now rewrite Hx.
Qed.

(** One failing entry anywhere is enough for the comprehension to raise. *)
Lemma comprehension_some_failure {A B : Type} (f : A -> result B)
    (xs : list A) (x : A) (e : exn) :
  In x xs -> f x = Raise e -> exists e', comprehension f xs = Raise e'.
Proof.
  induction xs as [|y ys IH]; intros Hin Hx; [destruct Hin|].
  simpl. destruct (f y) as [r|e0] eqn:Hy; [|eauto].
  destruct Hin as [->|Hin]; [congruence|].
  destruct (IH Hin Hx) as [e' ->]. eauto.
Qed.

(** When every entry is accepted the comprehension is a map: as many
    results as entries, the i-th one being the image of the i-th entry. *)
Lemma comprehension_all_ok {A B : Type} (f : A -> result B) (xs : list A) :
  Forall (fun x => exists y, f x = Ok y) xs ->
  exists ys, comprehension f xs = Ok ys /\ Forall2 (fun x y => f x = Ok y) xs ys.
Proof.
  induction 1 as [|x xs [y Hy] _ [ys [IH1 IH2]]]; simpl.
  - exists []. split; [reflexivity|constructor].
  - rewrite Hy, IH1. exists (y :: ys). split; [reflexivity|now constructor].
Qed.

(** ** The date parser *)

Lemma in_class_true (cl : cclass) (c : ascii) :
  in_class cl c = true -> fst cl <= code c <= snd cl.
Proof. unfold in_class. rewrite andb_true_iff, !Z.leb_le. tauto. Qed.

Lemma in_class_false (cl : cclass) (c : ascii) :
  in_class cl c = false -> code c < fst cl \/ snd cl < code c.
Proof. unfold in_class. rewrite andb_false_iff, !Z.leb_gt. tauto. Qed.

Lemma int_of_two_digits (a b : ascii) :
  in_class digit a = true -> in_class digit b = true ->
  int_of [a; b] = 10 * (code a - 48) + (code b - 48).
Proof. intros Ha Hb. unfold int_of. simpl. rewrite Ha, Hb. lia. Qed.

Lemma days_in_month_le_31 (y m : Z) : days_in_month y m <= 31.
Proof.
  unfold days_in_month.
  destruct (m =? 2); [destruct (is_leap y); lia|].
  destruct ((m =? 4) || (m =? 6) || (m =? 9) || (m =? 11)); lia.
Qed.

(** Case analysis on the next class test of the matcher, closing the cases
    that the arithmetic facts at hand exclude. *)
Ltac split_class :=
  match goal with
  | |- context [in_class ?cl ?c] =>
      let E := fresh "E" in
      destruct (in_class cl c) eqn:E;
      [ apply in_class_true in E | apply in_class_false in E ];
      unfold digit, lit, range, space in E; cbn [fst snd] in E;
      try (exfalso; lia)
  end.

(** Every valid YYYYMMDD string is accepted and read as the day it names. *)
Lemma valid_YYYYMMDD_strptime (s : string) :
  valid_YYYYMMDD s = true -> strptime_Ymd s = Ok (midnight_of s).
Proof.
  unfold valid_YYYYMMDD, strptime_Ymd, midnight_of.
  destruct (list_ascii_of_string s)
    as [|y1 [|y2 [|y3 [|y4 [|m1 [|m2 [|d1 [|d2 [|? ?]]]]]]]]]; try discriminate.
  intros H. apply andb_true_iff in H as [Hd Hv].
  cbn [forallb] in Hd.
  repeat (apply andb_true_iff in Hd as [? Hd]). clear Hd.
  pose proof Hv as Hr. unfold valid_date in Hr.
  rewrite !andb_true_iff, !Z.leb_le in Hr.
  rewrite (int_of_two_digits m1 m2), (int_of_two_digits d1 d2) in Hr by assumption.
  pose proof (days_in_month_le_31 (int_of [y1; y2; y3; y4])
                (10 * (code m1 - 48) + (code m2 - 48))).
  repeat match goal with
         | Hc : in_class digit ?c = true |- _ =>
             pose proof (in_class_true _ _ Hc); clear Hc
         end.
  unfold digit in *; cbn [fst snd] in *.
  cbn [match_groups match_alt re_Y re_m re_d].
  repeat split_class; rewrite Hv; reflexivity.
Qed.

(** The parser at work: the leading zero of a month or a day is optional,
    and a day that does not exist is refused. *)
Example strptime_eight_digits :
  strptime_Ymd "20240229" = Ok (mk_datetime 2024 2 29 0 0 0 0 None).
Proof. vm_compute. reflexivity. Qed.

Example strptime_seven_characters :
  strptime_Ymd "2024111" = Ok (mk_datetime 2024 11 1 0 0 0 0 None).
Proof. vm_compute. reflexivity. Qed.

Example strptime_no_such_day : strptime_Ymd "20230229" = Raise ValueError.
Proof. vm_compute. reflexivity. Qed.

Example strptime_trailing_text : strptime_Ymd "202401011" = Raise ValueError.
Proof. vm_compute. reflexivity. Qed.

Example strptime_dashes : strptime_Ymd "2024-01-01" = Raise ValueError.
Proof. vm_compute. reflexivity. Qed.

(** ** The transformation, in the module as shipped *)

(** The three names the transformation loads are bound, so the lookups
    disappear. *)
Lemma record_of_entry_module (entry : json) :
  record_of_entry module_globals entry =
    (date ← py_subscript entry "date";
     parsed ← strptime date;
     production ← py_get entry "dailyProduction" (JInt 0);
     power ← truediv_24 production;
     Ok (mk_record (replace_tzinfo parsed utc) power)).
Proof.
  unfold record_of_entry.
  destruct (py_subscript entry "date") as [date|e]; [|reflexivity].
  destruct (strptime date) as [parsed|e]; reflexivity.
Qed.

Lemma process_aurora_data_module (data_json : json) :
  process_aurora_data module_globals data_json =
    (result_field ← py_get data_json "result" (JArr []);
     entries ← py_iter result_field;
     records ← comprehension (record_of_entry module_globals) entries;
     Ok (mk_DataFrame records)).
Proof.
  unfold process_aurora_data.
  destruct (py_get data_json "result" (JArr [])) as [v|e]; [|reflexivity].
  destruct (py_iter v) as [entries|e]; [|reflexivity].
  cbn [mbind result_bind].
  destruct (comprehension (record_of_entry module_globals) entries); reflexivity.
Qed.

(** A payload whose [result] is a list is transformed by the comprehension
    over that list. *)
Lemma process_aurora_data_list (payload : list (string * json))
    (entries : list json) :
  dict_get "result" payload = Some (JArr entries) ->
  process_aurora_data module_globals (JObj payload) =
    match comprehension (record_of_entry module_globals) entries with
    | Ok records => Ok (mk_DataFrame records)
    | Raise e => Raise e
    end.
Proof.
  intros H. rewrite process_aurora_data_module. unfold py_get. rewrite H.
  reflexivity.
Qed.

Lemma record_of_entry_no_production (fields : list (string * json))
    (s : string) (d : datetime) :
  dict_get "date" fields = Some (JStr s) ->
  strptime_Ymd s = Ok d ->
  dict_get "dailyProduction" fields = None ->
  record_of_entry module_globals (JObj fields) =
    Ok (mk_record (replace_tzinfo d utc) 0%float).
Proof.
  intros Hdate Hparse Hprod. rewrite record_of_entry_module.
  unfold py_subscript, py_get. rewrite Hdate, Hprod.
  cbn [mbind result_bind strptime]. rewrite Hparse. reflexivity.
Qed.

Lemma strptime_Ymd_raises (s : string) (e : exn) :
  strptime_Ymd s = Raise e -> e = ValueError.
Proof.
  unfold strptime_Ymd.
  repeat match goal with
         | |- context [match ?x with _ => _ end] => destruct x
         end; congruence.
Qed.

Lemma record_of_entry_undatable (entry : json) :
  undatable entry = true ->
  record_of_entry module_globals entry = Raise (date_error entry).
Proof.
  rewrite record_of_entry_module.
  destruct entry as [| | | | |items|fields]; try reflexivity.
  unfold undatable, date_error, py_subscript.
  destruct (dict_get "date" fields) as [[| | | |s| |]|]; try reflexivity.
  cbn [mbind result_bind strptime].
  destruct (strptime_Ymd s) as [d|e] eqn:Hs; [discriminate|].
  intros _. now rewrite (strptime_Ymd_raises s e Hs).
Qed.

(** What is not a valid YYYYMMDD string may still be accepted; what is
    rejected is never a valid one. *)
Lemma undatable_bad_date (entry : json) :
  undatable entry = true -> bad_date entry = true.
Proof.
  destruct entry as [| | | | |items|fields]; try reflexivity.
  unfold undatable, bad_date.
  destruct (dict_get "date" fields) as [[| | | |s| |]|]; try reflexivity.
  destruct (valid_YYYYMMDD s) eqn:Hv; [|reflexivity].
  now rewrite (valid_YYYYMMDD_strptime s Hv).
Qed.

Lemma well_formed_entry_record (entry : json) :
  well_formed_entry entry = true ->
  exists fields s power,
    entry = JObj fields /\ dict_get "date" fields = Some (JStr s) /\
    record_of_entry module_globals entry =
      Ok (mk_record (replace_tzinfo (midnight_of s) utc) power).
Proof.
  destruct entry as [| | | | |items|fields]; try discriminate.
  unfold well_formed_entry.
  destruct (dict_get "date" fields) as [[| | | |s| |]|] eqn:Hdate; try discriminate.
  intros H. apply andb_true_iff in H as [Hv Hp].
  rewrite record_of_entry_module. unfold py_subscript, py_get. rewrite Hdate.
  cbn [mbind result_bind strptime]. rewrite (valid_YYYYMMDD_strptime s Hv).
  destruct (dict_get "dailyProduction" fields) as [v|].
  - destruct v as [| |z|f| | |]; try discriminate.
    + unfold is_number in Hp. cbn [mbind result_bind]. unfold truediv_24.
      destruct (float_of_int z) as [f|e]; [|discriminate].
      eexists fields, s, _. split; [reflexivity|]. split; [exact Hdate|reflexivity].
    + eexists fields, s, _. split; [reflexivity|]. split; [exact Hdate|reflexivity].
  - eexists fields, s, _. split; [reflexivity|]. split; [exact Hdate|reflexivity].
Qed.

(** ** Claims on the transformation *)

(** C2. The payload [{"result": [{"date": "20240101", "dailyProduction": 240}]}]
    is transformed into a table of exactly one record, whose timestamp is
    2024-01-01T00:00:00 UTC and whose power_kw is 10.0. *)
Theorem sample_payload_one_record :
  process_aurora_data module_globals sample =
    Ok (mk_DataFrame
          [ mk_record (mk_datetime 2024 1 1 0 0 0 0 (Some utc)) 10%float ]).
Proof. vm_compute. reflexivity. Qed.

(** C10. A payload that is a JSON object without a [result] field is
    transformed into the empty table; nothing is raised. *)
Theorem no_result_field_empty_table (payload : list (string * json)) :
  dict_get "result" payload = None ->
  process_aurora_data module_globals (JObj payload) = Ok (mk_DataFrame []).
Proof.
  intros H. rewrite process_aurora_data_module. unfold py_get. rewrite H.
  reflexivity.
Qed.

Lemma no_result_field_empty_table_witness :
  dict_get "result" [("status", JStr "ok")] = None /\
  process_aurora_data module_globals (JObj [("status", JStr "ok")]) =
    Ok (mk_DataFrame []).
Proof.
  split; [reflexivity|].
  apply (no_result_field_empty_table [("status", JStr "ok")]). reflexivity.
Defined.

(** C5. An entry whose date is accepted and that has no [dailyProduction]
    field yields, at its place in the table, a record with power_kw = 0.0:
    the entry neither fails the transformation nor is dropped. *)
Theorem missing_production_is_zero (payload : list (string * json))
    (pre post : list json) (fields : list (string * json)) (s : string)
    (d : datetime) (rs_pre rs_post : list record) :
  dict_get "result" payload = Some (JArr (pre ++ JObj fields :: post)) ->
  dict_get "date" fields = Some (JStr s) ->
  strptime_Ymd s = Ok d ->
  dict_get "dailyProduction" fields = None ->
  comprehension (record_of_entry module_globals) pre = Ok rs_pre ->
  comprehension (record_of_entry module_globals) post = Ok rs_post ->
  record_of_entry module_globals (JObj fields) =
    Ok (mk_record (replace_tzinfo d utc) 0%float) /\
  process_aurora_data module_globals (JObj payload) =
    Ok (mk_DataFrame
          (rs_pre ++ mk_record (replace_tzinfo d utc) 0%float :: rs_post)).
Proof.
  intros Hres Hdate Hparse Hprod Hpre Hpost.
  pose proof (record_of_entry_no_production fields s d Hdate Hparse Hprod) as He.
  split; [exact He|].
  rewrite (process_aurora_data_list payload _ Hres).
  rewrite (comprehension_app _ pre _ rs_pre Hpre).
  cbn [comprehension]. rewrite He, Hpost. reflexivity.
Qed.

Lemma missing_production_is_zero_witness :
  process_aurora_data module_globals
    (JObj [("result",
            JArr [ JObj [("date", JStr "20240101"); ("dailyProduction", JInt 240)];
                   JObj [("date", JStr "20240102")] ])]) =
    Ok (mk_DataFrame
          [ mk_record (mk_datetime 2024 1 1 0 0 0 0 (Some utc)) 10%float;
            mk_record (mk_datetime 2024 1 2 0 0 0 0 (Some utc)) 0%float ]).
Proof.
  refine (proj2 (missing_production_is_zero
    [("result",
      JArr [ JObj [("date", JStr "20240101"); ("dailyProduction", JInt 240)];
             JObj [("date", JStr "20240102")] ])]
    [ JObj [("date", JStr "20240101"); ("dailyProduction", JInt 240)] ] []
    [("date", JStr "20240102")] "20240102"
    (mk_datetime 2024 1 2 0 0 0 0 None)
    [ mk_record (mk_datetime 2024 1 1 0 0 0 0 (Some utc)) 10%float ] []
    _ _ _ _ _ _)); vm_compute; reflexivity.
Defined.

(** C6. When the [result] list holds N well-formed entries, the table has
    exactly N rows and the i-th row is the record of the i-th entry, dated
    by that entry's [date]: the transformation maps the list in order. *)
Theorem well_formed_entries_mapped_in_order (payload : list (string * json))
    (entries : list json) :
  dict_get "result" payload = Some (JArr entries) ->
  Forall (fun e => well_formed_entry e = true) entries ->
  exists rs,
    process_aurora_data module_globals (JObj payload) = Ok (mk_DataFrame rs) /\
    length rs = length entries /\
    forall (i : nat) (e : json),
      entries !! i = Some e ->
      exists r fields s,
        rs !! i = Some r /\
        record_of_entry module_globals e = Ok r /\
        e = JObj fields /\ dict_get "date" fields = Some (JStr s) /\
        timestamp r = replace_tzinfo (midnight_of s) utc.
Proof.
  intros Hres Hwf.
  assert (Hall : Forall (fun e => exists r, record_of_entry module_globals e = Ok r)
                        entries).
  { eapply Forall_impl; [exact Hwf|]. intros e He.
    destruct (well_formed_entry_record e He) as (fields & s & p & _ & _ & Hr).
    eauto. }
  destruct (comprehension_all_ok _ entries Hall) as (rs & Hrs & Hmap).
  exists rs. rewrite (process_aurora_data_list payload entries Hres), Hrs.
  split; [reflexivity|].
  split; [symmetry; eapply Forall2_length; exact Hmap|].
  intros i e Hi.
  destruct (Forall2_lookup_l _ _ _ _ _ Hmap Hi) as (r & Hr & Her).
  rewrite Forall_lookup in Hwf.
  destruct (well_formed_entry_record e (Hwf i e Hi))
    as (fields & s & p & -> & Hdate & Hrec).
  exists r, fields, s. repeat split; try assumption.
  rewrite Hrec in Her. injection Her as <-. reflexivity.
Qed.

Lemma well_formed_entries_mapped_in_order_witness :
  exists rs,
    process_aurora_data module_globals
      (JObj [("result",
              JArr [ JObj [("date", JStr "20240102"); ("dailyProduction", JInt 48)];
                     JObj [("date", JStr "20240101"); ("dailyProduction", JInt 240)] ])])
      = Ok (mk_DataFrame rs) /\
    length rs = 2%nat.
Proof.
  destruct (well_formed_entries_mapped_in_order
    [("result",
      JArr [ JObj [("date", JStr "20240102"); ("dailyProduction", JInt 48)];
             JObj [("date", JStr "20240101"); ("dailyProduction", JInt 240)] ])]
    [ JObj [("date", JStr "20240102"); ("dailyProduction", JInt 48)];
      JObj [("date", JStr "20240101"); ("dailyProduction", JInt 240)] ]
    eq_refl
    ltac:(repeat constructor)) as (rs & Hrs & Hlen & _).
  exists rs. split; [exact Hrs|exact Hlen].
Defined.

(** C4, as stated, fails: ["202411"] is not a valid YYYYMMDD string, yet
    [strptime] reads it as 2024-01-01 and the entry becomes a row. *)
Lemma short_date_accepted :
  bad_date (JObj [("date", JStr "202411")]) = true /\
  process_aurora_data module_globals
    (JObj [("result", JArr [JObj [("date", JStr "202411")]])]) =
    Ok (mk_DataFrame
          [ mk_record (mk_datetime 2024 1 1 0 0 0 0 (Some utc)) 0%float ]).
Proof. split; vm_compute; reflexivity. Qed.

(** C4, amended. When the [result] list contains an entry whose [date] is
    absent, is not a string, or is a string that [strptime] rejects, the
    transformation raises and returns no table, whatever the other entries
    are; when the entries before it are accepted, the exception is that
    entry's ([KeyError], [TypeError] or [ValueError]). *)
Theorem undatable_entry_fails_whole (payload : list (string * json))
    (pre post : list json) (entry : json) :
  dict_get "result" payload = Some (JArr (pre ++ entry :: post)) ->
  undatable entry = true ->
  (exists err, process_aurora_data module_globals (JObj payload) = Raise err) /\
  (forall rs, comprehension (record_of_entry module_globals) pre = Ok rs ->
     process_aurora_data module_globals (JObj payload) =
       Raise (date_error entry)).
Proof.
  intros Hres Hbad.
  pose proof (record_of_entry_undatable entry Hbad) as He.
  rewrite (process_aurora_data_list payload _ Hres).
  split.
  - destruct (comprehension_some_failure (record_of_entry module_globals)
                (pre ++ entry :: post) entry (date_error entry)) as [e' ->].
    + apply in_or_app. right. now left.
    + exact He.
    + eauto.
  - intros rs Hpre.
    now rewrite (comprehension_first_failure _ pre post entry rs _ Hpre He).
Qed.

Lemma undatable_entry_fails_whole_witness :
  process_aurora_data module_globals
    (JObj [("result",
            JArr [ JObj [("date", JStr "20240101"); ("dailyProduction", JInt 240)];
                   JObj [("dailyProduction", JInt 5)] ])]) =
    Raise (KeyError "date").
Proof.
  refine (proj2 (undatable_entry_fails_whole
    [("result",
      JArr [ JObj [("date", JStr "20240101"); ("dailyProduction", JInt 240)];
             JObj [("dailyProduction", JInt 5)] ])]
    [ JObj [("date", JStr "20240101"); ("dailyProduction", JInt 240)] ] []
    (JObj [("dailyProduction", JInt 5)]) eq_refl eq_refl)
    [ mk_record (mk_datetime 2024 1 1 0 0 0 0 (Some utc)) 10%float ] _).
  vm_compute. reflexivity.
Defined.

(** ** Running the monad *)

Lemma run_bind {A B : Type} (m : M A) (k : A -> M B) (w : World) :
  (m ≫= k) w =
    match m w with
    | (Ok a, w') => k a w'
    | (Raise e, w') => (Raise e, w')
    end.
Proof. reflexivity. Qed.

Lemma run_lift_ok {A B : Type} (r : result A) (a : A) (k : A -> M B) (w : World) :
  r = Ok a -> (lift r ≫= k) w = k a w.
Proof. intros ->. reflexivity. Qed.

Lemma run_load_global {B : Type} (g : list string) (name : string)
    (k : unit -> M B) (w : World) :
  bound g name = true -> (lift (load_global g name) ≫= k) w = k tt w.
Proof. intros H. apply run_lift_ok. now apply load_global_bound. Qed.

Lemma sent_app (t1 t2 : list Event) : sent (t1 ++ t2) = (sent t1 ++ sent t2)%list.
Proof.
  induction t1 as [|[|req] t1 IH]; simpl; [reflexivity|exact IH|].
  now rewrite IH.
Qed.

Lemma calls_app (t1 t2 : list Event) : calls (t1 ++ t2) = (calls t1 + calls t2)%nat.
Proof.
  induction t1 as [|[|req] t1 IH]; simpl; [reflexivity| |exact IH].
  now rewrite IH.
Qed.

(** ** Traces only grow *)

Lemma grows_mret {A : Type} (a : A) : grows (mret a : M A).
Proof. intros w. exists []. simpl. now rewrite app_nil_r. Qed.

Lemma grows_lift {A : Type} (r : result A) : grows (lift r).
Proof. intros w. exists []. simpl. now rewrite app_nil_r. Qed.

Lemma grows_log (e : Event) : grows (log e).
Proof. intros w. now exists [e]. Qed.

Lemma grows_getenv (key : string) : grows (getenv key).
Proof. intros w. exists []. simpl. now rewrite app_nil_r. Qed.

Lemma grows_environ_setitem (key : string) (v : json) :
  grows (environ_setitem key v).
Proof.
  intros w. exists []. rewrite app_nil_r.
  destruct v; try reflexivity. cbn [environ_setitem]. now destruct (has_null s).
Qed.

Lemma grows_HTTPSConnection : grows HTTPSConnection.
Proof.
  intros w. exists []. rewrite app_nil_r. unfold HTTPSConnection.
  now destruct (connection_refusal w).
Qed.

Lemma grows_exchange (service : Service) (req : Request) :
  grows (exchange service req).
Proof.
  intros w. unfold exchange. destruct (request_refusal req).
  - exists []. now rewrite app_nil_r.
  - now exists [Send req].
Qed.

Lemma grows_exchange_again (service : Service) (prev : Response) (req : Request) :
  grows (exchange_again service prev req).
Proof.
  intros w. unfold exchange_again. destruct (request_refusal req).
  - exists []. now rewrite app_nil_r.
  - now exists [Send req].
Qed.

Lemma grows_bind {A B : Type} (m : M A) (k : A -> M B) :
  grows m -> (forall a, grows (k a)) -> grows (m ≫= k).
Proof.
  intros Hm Hk w. rewrite run_bind.
  destruct (Hm w) as [evs Hevs]. destruct (m w) as [[a|e] w1]; simpl in Hevs.
  - destruct (Hk a w1) as [evs' Hevs']. exists (evs ++ evs')%list.
    now rewrite Hevs', Hevs, app_assoc.
  - now exists evs.
Qed.

Create HintDb grows.
#[local] Hint Resolve grows_mret grows_lift grows_log grows_getenv
  grows_environ_setitem grows_HTTPSConnection grows_exchange
  grows_exchange_again : grows.

Ltac grows_step :=
  first [ apply grows_bind; [|intros ?]
        | match goal with |- grows (if ?b then _ else _) => destruct b end
        | solve [auto with grows]
        | apply grows_lift ].

Lemma grows_authenticate_aurora (g : list string) (service : Service)
    (settings : Settings) :
  grows (authenticate_aurora g service settings).
Proof. unfold authenticate_aurora, raise. repeat grows_step. Qed.

Lemma grows_query_with_token (g : list string) (service : Service)
    (settings : Settings) (ts : Timestamp) (token : string) :
  grows (query_with_token g service settings ts token).
Proof.
  unfold query_with_token, raise.
  repeat (grows_step || apply grows_authenticate_aurora).
Qed.

(** The authenticator announces itself before anything else. *)
Lemma authenticate_aurora_starts (g : list string) (service : Service)
    (settings : Settings) (w : World) :
  exists evs,
    trace (authenticate_aurora g service settings w).2 =
      (trace w ++ Authenticate :: evs)%list.
Proof.
  assert (Hrest : forall k : unit -> M string, (forall u, grows (k u)) ->
            exists evs, trace ((log Authenticate ≫= k) w).2 =
                          (trace w ++ Authenticate :: evs)%list).
  { intros k Hk. rewrite run_bind. cbn [log].
    destruct (Hk tt (Build_World (environ w) (trace w ++ [Authenticate])
                                 (keylog w) (transport w)))
      as [evs Hevs].
    exists evs. rewrite Hevs. cbn [trace]. now rewrite <- app_assoc. }
  apply Hrest. intros _. unfold raise. repeat grows_step.
Qed.

(** ** Counting events *)

Lemma at_most_bind (P : Event -> bool) (n1 n2 : nat) {A B : Type}
    (m : M A) (k : A -> M B) :
  at_most P n1 m -> (forall a, at_most P n2 (k a)) ->
  at_most P (n1 + n2) (m ≫= k).
Proof.
  intros Hm Hk w. rewrite run_bind.
  destruct (Hm w) as (evs & Hevs & Hn). destruct (m w) as [[a|e] w1]; simpl in Hevs.
  - destruct (Hk a w1) as (evs' & Hevs' & Hn'). exists (evs ++ evs')%list.
    rewrite Hevs', Hevs, app_assoc, filter_app, length_app. split; [reflexivity|lia].
  - exists evs. split; [exact Hevs|lia].
Qed.

Lemma at_most_lift (P : Event -> bool) {A : Type} (r : result A) :
  at_most P 0 (lift r).
Proof. intros w. exists []. simpl. now rewrite app_nil_r. Qed.

Lemma at_most_mret (P : Event -> bool) {A : Type} (a : A) :
  at_most P 0 (mret a : M A).
Proof. intros w. exists []. simpl. now rewrite app_nil_r. Qed.

Lemma at_most_getenv (P : Event -> bool) (key : string) :
  at_most P 0 (getenv key).
Proof. intros w. exists []. simpl. now rewrite app_nil_r. Qed.

Lemma at_most_environ_setitem (P : Event -> bool) (key : string) (v : json) :
  at_most P 0 (environ_setitem key v).
Proof.
  intros w. exists []. rewrite app_nil_r.
  destruct v; try (now split). cbn [environ_setitem]. now destruct (has_null s).
Qed.

Lemma at_most_HTTPSConnection (P : Event -> bool) : at_most P 0 HTTPSConnection.
Proof.
  intros w. exists []. rewrite app_nil_r. unfold HTTPSConnection.
  now destruct (connection_refusal w).
Qed.

Lemma at_most_log (P : Event -> bool) (e : Event) :
  at_most P (if P e then 1 else 0) (log e).
Proof.
  intros w. exists [e]. split; [reflexivity|].
  rewrite filter_cons, filter_nil. unfold decide, decide_rel.
  destruct (P e); simpl; lia.
Qed.

Lemma at_most_exchange (P : Event -> bool) (service : Service) (req : Request) :
  at_most P (if P (Send req) then 1 else 0) (exchange service req).
Proof.
  intros w. unfold exchange. destruct (request_refusal req).
  - exists []. rewrite app_nil_r. split; [reflexivity|simpl; lia].
  - exists [Send req]. split; [reflexivity|].
    rewrite filter_cons, filter_nil.
    destruct (P (Send req)); simpl; lia.
Qed.

Lemma at_most_exchange_again (P : Event -> bool) (service : Service)
    (prev : Response) (req : Request) :
  at_most P (if P (Send req) then 1 else 0) (exchange_again service prev req).
Proof.
  intros w. unfold exchange_again. destruct (request_refusal req).
  - exists []. rewrite app_nil_r. split; [reflexivity|simpl; lia].
  - exists [Send req]. split; [reflexivity|].
    rewrite filter_cons, filter_nil.
    destruct (P (Send req)); simpl; lia.
Qed.

Lemma at_most_le (P : Event -> bool) (n n' : nat) {A : Type} (m : M A) :
  (n <= n')%nat -> at_most P n m -> at_most P n' m.
Proof.
  intros Hle Hm w. destruct (Hm w) as (evs & Hevs & Hn).
  exists evs. split; [exact Hevs|lia].
Qed.

(** ** The Basic credentials *)

Example b64encode_user_pass : b64encode "user:pass" = "dXNlcjpwYXNz".
Proof. vm_compute. reflexivity. Qed.

Example b64encode_padding :
  b64encode "a" = "YQ==" /\ b64encode "ab" = "YWI=" /\ b64encode "abc" = "YWJj".
Proof. repeat split; vm_compute; reflexivity. Qed.

(** ** The authenticator *)

(** Building the connection changes nothing in the world. *)
Lemma run_HTTPSConnection {B : Type} (k : unit -> M B) (w : World) :
  (HTTPSConnection ≫= k) w =
    match connection_refusal w with
    | Some e => (Raise e, w)
    | None => k tt w
    end.
Proof.
  rewrite run_bind. unfold HTTPSConnection.
  now destruct (connection_refusal w).
Qed.

Lemma run_exchange {B : Type} (service : Service) (req : Request)
    (k : Response -> M B) (w : World) :
  request_refusal req = None ->
  transport w (sent (trace w)) req = None ->
  (exchange service req ≫= k) w =
    k (service (sent (trace w)) req)
      (Build_World (environ w) (trace w ++ [Send req]) (keylog w) (transport w)).
Proof. intros H Ht. rewrite run_bind. unfold exchange. now rewrite H, Ht. Qed.

(** In the module as shipped [base64] is not bound: once the connection is
    built the call ends at line 36 with a [NameError]; either way no
    request has gone out and [os.environ] is as it was. *)
Lemma authenticate_aurora_shipped (service : Service) (settings : Settings)
    (w : World) :
  authenticate_aurora module_globals service settings w =
    (Raise (default (NameError "base64") (connection_refusal w)),
     Build_World (environ w) (trace w ++ [Authenticate]) (keylog w) (transport w)).
Proof.
  unfold authenticate_aurora. rewrite run_bind. cbn [log].
  rewrite run_load_global by reflexivity.
  rewrite run_HTTPSConnection. unfold connection_refusal. cbn [environ keylog].
  destruct (environ w !! keylog_key) as [path|]; [|reflexivity].
  destruct (String.eqb path ""); [reflexivity|].
  now destruct (keylog w path).
Qed.

Lemma sent_after_call (t : list Event) : sent (t ++ [Authenticate]) = sent t.
Proof. rewrite sent_app. simpl. now rewrite app_nil_r. Qed.

(** With [base64] bound: a 200 answer holding a token string is stored and
    returned. *)
Lemma authenticate_aurora_grants (service : Service) (settings : Settings)
    (w : World) (fields : list (string * json)) (token : string) :
  connection_refusal w = None ->
  request_refusal (auth_request settings) = None ->
  transport w (sent (trace w)) (auth_request settings) = None ->
  status (service (sent (trace w)) (auth_request settings)) = 200 ->
  body (service (sent (trace w)) (auth_request settings)) = Json (JObj fields) ->
  dict_get "result" fields = Some (JStr token) ->
  has_null token = false ->
  authenticate_aurora globals_with_base64 service settings w =
    (Ok token,
     Build_World (<[token_key := token]> (environ w))
                 (trace w ++ [Authenticate; Send (auth_request settings)])
                 (keylog w) (transport w)).
Proof.
  intros Hconn Hreq Htr Hst Hbody Hres Hnull. unfold authenticate_aurora.
  rewrite run_bind. cbn [log].
  rewrite run_load_global by reflexivity.
  rewrite run_HTTPSConnection.
  change (connection_refusal (Build_World (environ w) (trace w ++ [Authenticate])
                                          (keylog w) (transport w)))
    with (connection_refusal w).
  rewrite Hconn. rewrite run_load_global by reflexivity.
  rewrite run_exchange;
    [|exact Hreq|cbn [trace transport]; rewrite sent_after_call; exact Htr].
  cbn [trace environ keylog transport].
  rewrite sent_after_call, Hst. cbn [negb Z.eqb Pos.eqb].
  rewrite run_load_global by reflexivity.
  rewrite Hbody. cbn [json_loads].
  rewrite (run_lift_ok _ (JObj fields)) by reflexivity.
  rewrite (run_lift_ok _ (JStr token)) by (unfold py_subscript; now rewrite Hres).
  rewrite run_load_global by reflexivity.
  cbn [environ_setitem]. rewrite Hnull. cbn [environ trace keylog transport].
  now rewrite <- app_assoc.
Qed.

(** With [base64] bound: any other status is raised with its code, and
    [os.environ] is as it was. *)
Lemma authenticate_aurora_refused (service : Service) (settings : Settings)
    (w : World) :
  connection_refusal w = None ->
  request_refusal (auth_request settings) = None ->
  transport w (sent (trace w)) (auth_request settings) = None ->
  status (service (sent (trace w)) (auth_request settings)) <> 200 ->
  authenticate_aurora globals_with_base64 service settings w =
    (Raise (auth_failed (status (service (sent (trace w)) (auth_request settings)))),
     Build_World (environ w)
                 (trace w ++ [Authenticate; Send (auth_request settings)])
                 (keylog w) (transport w)).
Proof.
  intros Hconn Hreq Htr Hst. unfold authenticate_aurora.
  rewrite run_bind. cbn [log].
  rewrite run_load_global by reflexivity.
  rewrite run_HTTPSConnection.
  change (connection_refusal (Build_World (environ w) (trace w ++ [Authenticate])
                                          (keylog w) (transport w)))
    with (connection_refusal w).
  rewrite Hconn. rewrite run_load_global by reflexivity.
  rewrite run_exchange;
    [|exact Hreq|cbn [trace transport]; rewrite sent_after_call; exact Htr].
  cbn [trace environ keylog transport].
  rewrite sent_after_call.
  apply Z.eqb_neq in Hst. rewrite Hst. cbn [negb raise lift].
  now rewrite <- app_assoc.
Qed.

(** The status an exception message carries can be read back. *)
Lemma auth_failed_inj (st1 st2 : Z) : auth_failed st1 = auth_failed st2 -> st1 = st2.
Proof.
  unfold auth_failed. intros H. injection H as H.
  apply (inj (String.app _)) in H. now apply (inj pretty) in H.
Qed.

Lemma fetch_failed_inj (st1 st2 : Z) : fetch_failed st1 = fetch_failed st2 -> st1 = st2.
Proof.
  unfold fetch_failed. intros H. injection H as H.
  apply (inj (String.app _)) in H. now apply (inj pretty) in H.
Qed.

(** ** The fetcher *)

Lemma falsy_token (token : string) : token <> "" -> falsy (Some token) = false.
Proof. intros H. now apply String.eqb_neq. Qed.

(** A cached, non-empty token goes straight to the query. *)
Lemma get_aurora_vision_data_cached (g : list string) (service : Service)
    (settings : Settings) (ts : Timestamp) (w : World) (token : string) :
  bound g "os" = true ->
  environ w !! token_key = Some token -> token <> "" ->
  get_aurora_vision_data g service settings ts w =
    query_with_token g service settings ts token w.
Proof.
  intros Hos Henv Hne. unfold get_aurora_vision_data.
  rewrite run_load_global by exact Hos.
  rewrite run_bind. cbn [getenv]. rewrite Henv, (falsy_token token Hne).
  reflexivity.
Qed.

(** Without a token that counts, the authenticator runs first, on the world
    as the fetcher found it, and the query follows with what it returns. *)
Lemma get_aurora_vision_data_uncached (g : list string) (service : Service)
    (settings : Settings) (ts : Timestamp) (w : World) :
  bound g "os" = true -> bound g "authenticate_aurora" = true ->
  falsy (environ w !! token_key) = true ->
  get_aurora_vision_data g service settings ts w =
    (authenticate_aurora g service settings
       ≫= query_with_token g service settings ts) w.
Proof.
  intros Hos Hauth Hfalsy. unfold get_aurora_vision_data.
  rewrite run_load_global by exact Hos.
  rewrite run_bind. cbn [getenv]. rewrite Hfalsy.
  rewrite run_bind. rewrite run_load_global by exact Hauth.
  reflexivity.
Qed.

Lemma run_decode_and_process (g : list string) (res : Response) (w : World) :
  (lift (load_global g "json") ;;
   data_json ← lift (json_loads (body res));
   lift (load_global g "process_aurora_data") ;;
   lift (process_aurora_data g data_json)) w
  = (decode_and_process g res, w).
Proof.
  unfold decode_and_process. rewrite run_bind. unfold lift at 1.
  destruct (load_global g "json") as [[]|e]; [|reflexivity].
  rewrite run_bind. unfold lift at 1.
  destruct (json_loads (body res)) as [j|e]; [|reflexivity].
  rewrite run_bind. unfold lift at 1.
  destruct (load_global g "process_aurora_data") as [[]|e]; reflexivity.
Qed.

(** The query answered 200 at once: one request, nothing else. *)
Lemma query_with_token_accepted (g : list string) (service : Service)
    (settings : Settings) (ts : Timestamp) (w : World) (token : string) :
  bound g "http" = true ->
  connection_refusal w = None ->
  request_refusal (query_request settings ts token) = None ->
  transport w (sent (trace w)) (query_request settings ts token) = None ->
  status (service (sent (trace w)) (query_request settings ts token)) = 200 ->
  query_with_token g service settings ts token w =
    (decode_and_process g (service (sent (trace w)) (query_request settings ts token)),
     Build_World (environ w)
       (trace w ++ [Send (query_request settings ts token)]) (keylog w) (transport w)).
Proof.
  intros Hhttp Hconn Hreq Htr Hst. unfold query_with_token.
  rewrite run_load_global by exact Hhttp.
  rewrite run_HTTPSConnection, Hconn.
  rewrite (run_exchange _ _ _ _ Hreq Htr). rewrite Hst. cbn [Z.eqb Pos.eqb].
  rewrite run_bind. cbn [mret M_ret]. rewrite Hst. cbn [Z.eqb Pos.eqb negb].
  apply run_decode_and_process.
Qed.

(** The query answered 401, in the module as shipped: the authenticator is
    entered and raises; the request is not sent again. *)
Lemma query_with_token_rejected_shipped (service : Service)
    (settings : Settings) (ts : Timestamp) (w : World) (token : string) :
  connection_refusal w = None ->
  request_refusal (query_request settings ts token) = None ->
  transport w (sent (trace w)) (query_request settings ts token) = None ->
  status (service (sent (trace w)) (query_request settings ts token)) = 401 ->
  query_with_token module_globals service settings ts token w =
    (Raise (NameError "base64"),
     Build_World (environ w)
       (trace w ++ [Send (query_request settings ts token); Authenticate])
       (keylog w) (transport w)).
Proof.
  intros Hconn Hreq Htr Hst. unfold query_with_token.
  rewrite run_load_global by reflexivity.
  rewrite run_HTTPSConnection, Hconn.
  rewrite (run_exchange _ _ _ _ Hreq Htr). rewrite Hst. cbn [Z.eqb Pos.eqb].
  rewrite run_bind. rewrite run_load_global by reflexivity.
  rewrite run_bind, authenticate_aurora_shipped.
  change (connection_refusal
            (Build_World (environ w)
               (trace w ++ [Send (query_request settings ts token)]) (keylog w) (transport w)))
    with (connection_refusal w).
  rewrite Hconn. cbn [default environ trace keylog transport].
  now rewrite <- app_assoc.
Qed.

(** The query answered 401, with [base64] bound and a token granted: the
    request goes out once more with the new token.  When the 401 ended the
    connection the second answer is final; when it kept the connection
    alive, the second [getresponse] raises [ResponseNotReady], since the
    first answer was never read. *)
Lemma query_with_token_retried (service : Service) (settings : Settings)
    (ts : Timestamp) (w : World) (token fresh : string)
    (fields : list (string * json)) :
  let q1 := query_request settings ts token in
  let q2 := query_request settings ts fresh in
  let res1 := service (sent (trace w)) q1 in
  let auth := service (sent (trace w) ++ [q1])%list (auth_request settings) in
  let res2 := service (sent (trace w) ++ [q1; auth_request settings])%list q2 in
  connection_refusal w = None ->
  request_refusal q1 = None ->
  request_refusal (auth_request settings) = None ->
  request_refusal q2 = None ->
  transport w (sent (trace w)) q1 = None ->
  transport w (sent (trace w) ++ [q1])%list (auth_request settings) = None ->
  transport w (sent (trace w) ++ [q1; auth_request settings])%list q2 = None ->
  status res1 = 401 ->
  status auth = 200 ->
  body auth = Json (JObj fields) ->
  dict_get "result" fields = Some (JStr fresh) ->
  has_null fresh = false ->
  query_with_token globals_with_base64 service settings ts token w =
    (if will_close res1 then
       if status res2 =? 200 then decode_and_process globals_with_base64 res2
       else Raise (fetch_failed (status res2))
     else Raise ResponseNotReady,
     Build_World (<[token_key := fresh]> (environ w))
       (trace w ++ [Send q1; Authenticate; Send (auth_request settings); Send q2])
       (keylog w) (transport w)).
Proof.
  intros q1 q2 res1 auth res2 Hconn Hq1 Hauthreq Hq2 Ht1 Hta Ht2 Hst Hauth Hbody
         Hres Hnull.
  unfold query_with_token.
  rewrite run_load_global by reflexivity.
  rewrite run_HTTPSConnection, Hconn.
  rewrite (run_exchange _ _ _ _ Hq1 Ht1). fold q1. fold res1.
  rewrite Hst. cbn [Z.eqb Pos.eqb].
  rewrite run_bind. rewrite run_load_global by reflexivity.
  rewrite run_bind.
  rewrite (authenticate_aurora_grants service settings _ fields fresh);
    cbn [trace environ keylog transport]; rewrite ?sent_app; cbn [sent];
    try assumption.
  unfold exchange_again. fold q2. rewrite Hq2.
  cbn [trace environ keylog transport].
  rewrite !sent_app. cbn [sent].
  rewrite <- !app_assoc. cbn [app]. rewrite Ht2. fold res2.
  destruct (will_close res1); [|reflexivity].
  destruct (status res2 =? 200) eqn:E; cbn [negb].
  - rewrite run_decode_and_process. reflexivity.
  - reflexivity.
Qed.

(** With [base64] bound, a rejected cached token is renewed and the query
    repeated once; whatever comes of the second one, nothing more is sent. *)
Lemma get_aurora_vision_data_retried (service : Service) (settings : Settings)
    (ts : Timestamp) (w : World) (token fresh : string)
    (fields : list (string * json)) :
  let q1 := query_request settings ts token in
  let q2 := query_request settings ts fresh in
  let res1 := service (sent (trace w)) q1 in
  let auth := service (sent (trace w) ++ [q1])%list (auth_request settings) in
  let res2 := service (sent (trace w) ++ [q1; auth_request settings])%list q2 in
  environ w !! token_key = Some token -> token <> "" ->
  connection_refusal w = None ->
  request_refusal q1 = None ->
  request_refusal (auth_request settings) = None ->
  request_refusal q2 = None ->
  transport w (sent (trace w)) q1 = None ->
  transport w (sent (trace w) ++ [q1])%list (auth_request settings) = None ->
  transport w (sent (trace w) ++ [q1; auth_request settings])%list q2 = None ->
  status res1 = 401 ->
  status auth = 200 ->
  body auth = Json (JObj fields) ->
  dict_get "result" fields = Some (JStr fresh) ->
  has_null fresh = false ->
  get_aurora_vision_data globals_with_base64 service settings ts w =
    (if will_close res1 then
       if status res2 =? 200 then decode_and_process globals_with_base64 res2
       else Raise (fetch_failed (status res2))
     else Raise ResponseNotReady,
     Build_World (<[token_key := fresh]> (environ w))
       (trace w ++ [Send q1; Authenticate; Send (auth_request settings); Send q2])
       (keylog w) (transport w)).
Proof.
  intros q1 q2 res1 auth res2 Henv Hne Hconn Hq1 Hauthreq Hq2 Ht1 Hta Ht2 Hst
         Hauth Hbody Hres Hnull.
  rewrite (get_aurora_vision_data_cached _ _ _ _ _ token) by (reflexivity || assumption).
  now apply (query_with_token_retried service settings ts w token fresh fields).
Qed.

(** In the module as shipped, a rejected cached token ends the call with the
    authenticator's [NameError]: one request has gone out, none follows. *)
Lemma get_aurora_vision_data_rejected_shipped (service : Service)
    (settings : Settings) (ts : Timestamp) (w : World) (token : string) :
  environ w !! token_key = Some token -> token <> "" ->
  connection_refusal w = None ->
  request_refusal (query_request settings ts token) = None ->
  transport w (sent (trace w)) (query_request settings ts token) = None ->
  status (service (sent (trace w)) (query_request settings ts token)) = 401 ->
  get_aurora_vision_data module_globals service settings ts w =
    (Raise (NameError "base64"),
     Build_World (environ w)
       (trace w ++ [Send (query_request settings ts token); Authenticate])
       (keylog w) (transport w)).
Proof.
  intros Henv Hne Hconn Hreq Htr Hst.
  rewrite (get_aurora_vision_data_cached _ _ _ _ _ token) by (reflexivity || assumption).
  now apply query_with_token_rejected_shipped.
Qed.

(** ** At most two queries, at most two calls *)

Section Bounds.
Variable g : list string.
Variable service : Service.
Variable settings : Settings.
Variable ts : Timestamp.

Lemma auth_request_not_query :
  is_query settings ts (Send (auth_request settings)) = false.
Proof. reflexivity. Qed.

Lemma query_request_is_query (token : string) :
  is_query settings ts (Send (query_request settings ts token)) = true.
Proof. apply String.eqb_refl. Qed.

(** Whatever is bound, the authenticator sends no production query ... *)
Lemma authenticate_aurora_no_query :
  at_most (is_query settings ts) 0 (authenticate_aurora g service settings).
Proof.
  unfold authenticate_aurora, raise.
  apply (at_most_bind _ 0 0);
    [apply (at_most_log (is_query settings ts) Authenticate)|intros _].
  apply (at_most_bind _ 0 0); [apply at_most_lift|intros _].
  apply (at_most_bind _ 0 0); [apply at_most_HTTPSConnection|intros _].
  apply (at_most_bind _ 0 0); [apply at_most_lift|intros _].
  apply (at_most_bind _ 0 0).
  { pose proof (at_most_exchange (is_query settings ts) service
                  (auth_request settings)) as H.
    now rewrite auth_request_not_query in H. }
  intros res. destruct (negb (status res =? 200)); [apply at_most_lift|].
  apply (at_most_bind _ 0 0); [apply at_most_lift|intros _].
  apply (at_most_bind _ 0 0); [apply at_most_lift|intros parsed].
  apply (at_most_bind _ 0 0); [apply at_most_lift|intros token].
  apply (at_most_bind _ 0 0); [apply at_most_lift|intros _].
  apply at_most_environ_setitem.
Qed.

(** ... and is entered once. *)
Lemma authenticate_aurora_one_call :
  at_most is_call 1 (authenticate_aurora g service settings).
Proof.
  unfold authenticate_aurora, raise.
  apply (at_most_bind _ 1 0); [apply (at_most_log is_call Authenticate)|intros _].
  apply (at_most_bind _ 0 0); [apply at_most_lift|intros _].
  apply (at_most_bind _ 0 0); [apply at_most_HTTPSConnection|intros _].
  apply (at_most_bind _ 0 0); [apply at_most_lift|intros _].
  apply (at_most_bind _ 0 0); [apply (at_most_exchange is_call)|].
  intros res. destruct (negb (status res =? 200)); [apply at_most_lift|].
  apply (at_most_bind _ 0 0); [apply at_most_lift|intros _].
  apply (at_most_bind _ 0 0); [apply at_most_lift|intros parsed].
  apply (at_most_bind _ 0 0); [apply at_most_lift|intros token].
  apply (at_most_bind _ 0 0); [apply at_most_lift|intros _].
  apply at_most_environ_setitem.
Qed.

Lemma at_most_query (token : string) :
  at_most (is_query settings ts) 1
          (exchange service (query_request settings ts token)).
Proof.
  pose proof (at_most_exchange (is_query settings ts) service
                (query_request settings ts token)) as H.
  now rewrite query_request_is_query in H.
Qed.

Lemma at_most_query_again (prev : Response) (token : string) :
  at_most (is_query settings ts) 1
          (exchange_again service prev (query_request settings ts token)).
Proof.
  pose proof (at_most_exchange_again (is_query settings ts) service prev
                (query_request settings ts token)) as H.
  now rewrite query_request_is_query in H.
Qed.

Lemma at_most_decode (P : Event -> bool) (res : Response) :
  at_most P 0
    (lift (load_global g "json") ;;
     data_json ← lift (json_loads (body res));
     lift (load_global g "process_aurora_data") ;;
     lift (process_aurora_data g data_json)).
Proof.
  intros w. rewrite run_decode_and_process. exists [].
  simpl. now rewrite app_nil_r.
Qed.

(** From the query on: at most two production queries and one call of the
    authenticator. *)
Lemma query_with_token_two_queries (token : string) :
  at_most (is_query settings ts) 2 (query_with_token g service settings ts token).
Proof.
  unfold query_with_token, raise.
  apply (at_most_bind _ 0 2); [apply at_most_lift|intros _].
  apply (at_most_bind _ 0 2); [apply at_most_HTTPSConnection|intros _].
  apply (at_most_bind _ 1 1); [apply at_most_query|intros res].
  apply (at_most_bind _ 1 0).
  - destruct (status res =? 401).
    + apply (at_most_bind _ 0 1); [apply at_most_lift|intros _].
      apply (at_most_bind _ 0 1); [apply authenticate_aurora_no_query|intros fresh].
      apply at_most_query_again.
    + apply (at_most_le _ 0); [lia|apply at_most_mret].
  - intros res2. destruct (negb (status res2 =? 200)); [apply at_most_lift|].
    apply at_most_decode.
Qed.

Lemma query_with_token_one_call (token : string) :
  at_most is_call 1 (query_with_token g service settings ts token).
Proof.
  unfold query_with_token, raise.
  apply (at_most_bind _ 0 1); [apply at_most_lift|intros _].
  apply (at_most_bind _ 0 1); [apply at_most_HTTPSConnection|intros _].
  apply (at_most_bind _ 0 1); [apply (at_most_exchange is_call)|intros res].
  apply (at_most_bind _ 1 0).
  - destruct (status res =? 401).
    + apply (at_most_bind _ 0 1); [apply at_most_lift|intros _].
      apply (at_most_bind _ 1 0); [apply authenticate_aurora_one_call|intros fresh].
      apply (at_most_exchange_again is_call).
    + apply (at_most_le _ 0); [lia|apply at_most_mret].
  - intros res2. destruct (negb (status res2 =? 200)); [apply at_most_lift|].
    apply at_most_decode.
Qed.

(** One fetch never sends the production query a third time, whatever the
    namespace, the service and the cache. *)
Lemma get_aurora_vision_data_two_queries :
  at_most (is_query settings ts) 2 (get_aurora_vision_data g service settings ts).
Proof.
  unfold get_aurora_vision_data.
  apply (at_most_bind _ 0 2); [apply at_most_lift|intros _].
  apply (at_most_bind _ 0 2); [apply at_most_getenv|intros cached].
  apply (at_most_bind _ 0 2); [|intros token; apply query_with_token_two_queries].
  destruct (falsy cached); [|apply at_most_mret].
  apply (at_most_bind _ 0 0); [apply at_most_lift|intros _].
  apply authenticate_aurora_no_query.
Qed.

Lemma get_aurora_vision_data_two_calls :
  at_most is_call 2 (get_aurora_vision_data g service settings ts).
Proof.
  unfold get_aurora_vision_data.
  apply (at_most_bind _ 0 2); [apply at_most_lift|intros _].
  apply (at_most_bind _ 0 2); [apply at_most_getenv|intros cached].
  apply (at_most_bind _ 1 1); [|intros token; apply query_with_token_one_call].
  destruct (falsy cached); [|apply (at_most_le _ 0); [lia|apply at_most_mret]].
  apply (at_most_bind _ 0 1); [apply at_most_lift|intros _].
  apply authenticate_aurora_one_call.
Qed.
End Bounds.

(** The scenario with [base64] bound: the stale token is renewed and the
    second query succeeds ... *)
Example stale_token_renewed_with_base64 :
  get_aurora_vision_data globals_with_base64 (vendor grants_fresh)
    demo_settings demo_day stale_token =
    (Ok (mk_DataFrame
           [ mk_record (mk_datetime 2024 1 1 0 0 0 0 (Some utc)) 10%float ]),
     mk_World {[ token_key := "fresh" ]}
       [ Send (query_request demo_settings demo_day "stale"); Authenticate;
         Send (auth_request demo_settings);
         Send (query_request demo_settings demo_day "fresh") ]).
Proof. vm_compute. reflexivity. Qed.

(** ... and when the second query is rejected too, its status is raised
    after two queries, without a third. *)
Example second_rejection_raised_with_base64 :
  get_aurora_vision_data globals_with_base64 (rejecting grants_fresh)
    demo_settings demo_day stale_token =
    (Raise (fetch_failed 401),
     mk_World {[ token_key := "fresh" ]}
       [ Send (query_request demo_settings demo_day "stale"); Authenticate;
         Send (auth_request demo_settings);
         Send (query_request demo_settings demo_day "fresh") ]).
Proof. vm_compute. reflexivity. Qed.

(** With [base64] bound and a 401 that keeps the connection alive, the
    token is renewed and the query goes out again, but its answer cannot be
    read: the first one never was. *)
Example kept_alive_rejection_not_ready_with_base64 :
  get_aurora_vision_data globals_with_base64 (vendor_keep_alive grants_fresh)
    demo_settings demo_day stale_token =
    (Raise ResponseNotReady,
     mk_World {[ token_key := "fresh" ]}
       [ Send (query_request demo_settings demo_day "stale"); Authenticate;
         Send (auth_request demo_settings);
         Send (query_request demo_settings demo_day "fresh") ]).
Proof. vm_compute. reflexivity. Qed.

(** With [base64] bound and the renewal refused, the authenticator's
    exception reaches the caller and the query is not repeated. *)
Example refused_renewal_propagates_with_base64 :
  get_aurora_vision_data globals_with_base64 (vendor refuses)
    demo_settings demo_day stale_token =
    (Raise (auth_failed 403),
     mk_World {[ token_key := "stale" ]}
       [ Send (query_request demo_settings demo_day "stale"); Authenticate;
         Send (auth_request demo_settings) ]).
Proof. vm_compute. reflexivity. Qed.

(** ** Claims on the authenticator and the fetcher *)

(** C3, at a failing input.  The authentication endpoint would answer 200
    with [{"result": "fresh"}]; the authenticator of the module as shipped
    raises [NameError] on [base64] instead of returning ["fresh"], sends
    nothing, and leaves [os.environ] without a token. *)
Theorem granted_token_not_returned_shipped :
  status (vendor grants_fresh [] (auth_request demo_settings)) = 200 /\
  body (vendor grants_fresh [] (auth_request demo_settings)) =
    Json (JObj [("result", JStr "fresh")]) /\
  authenticate_aurora module_globals (vendor grants_fresh) demo_settings no_token =
    (Raise (NameError "base64"), mk_World ∅ [Authenticate]) /\
  environ (after (authenticate_aurora module_globals (vendor grants_fresh)
                    demo_settings) no_token) !! token_key = None.
Proof.
  split; [reflexivity|]. split; [reflexivity|].
  split; [apply authenticate_aurora_shipped|reflexivity].
Qed.

(** C8, at a failing input.  The authentication endpoint would answer 403;
    the authenticator of the module as shipped raises [NameError] on
    [base64], which is not the exception carrying 403, and no request has
    gone out.  The cached token is left as it was. *)
Theorem refusal_status_not_reported_shipped :
  status (vendor refuses [] (auth_request demo_settings)) = 403 /\
  outcome (authenticate_aurora module_globals (vendor refuses) demo_settings)
          stale_token = Raise (NameError "base64") /\
  outcome (authenticate_aurora module_globals (vendor refuses) demo_settings)
          stale_token <> Raise (auth_failed 403) /\
  sent (trace (after (authenticate_aurora module_globals (vendor refuses)
                        demo_settings) stale_token)) = [] /\
  environ (after (authenticate_aurora module_globals (vendor refuses)
                    demo_settings) stale_token) = environ stale_token.
Proof.
  unfold outcome, after. rewrite authenticate_aurora_shipped.
  repeat split; try reflexivity. discriminate.
Qed.

(** C1, at a failing input.  The cached token is stale and the first answer
    to the production query is 401; the endpoint would grant a new token.
    The module as shipped enters the authenticator, which raises
    [NameError] on [base64]: the query has gone out once and is not sent
    again. *)
Theorem rejected_token_not_retried_shipped :
  status (vendor grants_fresh [] (query_request demo_settings demo_day "stale")) = 401 /\
  get_aurora_vision_data module_globals (vendor grants_fresh)
    demo_settings demo_day stale_token =
    (Raise (NameError "base64"),
     mk_World {[ token_key := "stale" ]}
       [ Send (query_request demo_settings demo_day "stale"); Authenticate ]).
Proof.
  split; [reflexivity|].
  apply (get_aurora_vision_data_rejected_shipped (vendor grants_fresh)
           demo_settings demo_day stale_token "stale");
    [reflexivity|discriminate|reflexivity|reflexivity|reflexivity|reflexivity].
Qed.

(** C7. With a non-empty token cached and a 200 answer to the production
    query, the fetch adds exactly one event to the trace, the request of
    that query: one request goes out, the authenticator is not entered,
    [os.environ] is untouched, and the result is the decoded answer's
    transformation.  That the query is answered supposes that it can be
    sent: the connection can be built (the key log that [SSLKEYLOGFILE]
    may name can be opened), [http.client] accepts the text of the
    request, and the transport delivers it. *)
Theorem cached_token_single_request (g : list string) (service : Service)
    (settings : Settings) (ts : Timestamp) (w : World) (token : string) :
  bound g "os" = true -> bound g "http" = true ->
  environ w !! token_key = Some token -> token <> "" ->
  connection_refusal w = None ->
  request_refusal (query_request settings ts token) = None ->
  transport w (sent (trace w)) (query_request settings ts token) = None ->
  status (service (sent (trace w)) (query_request settings ts token)) = 200 ->
  trace (after (get_aurora_vision_data g service settings ts) w) =
    (trace w ++ [Send (query_request settings ts token)])%list /\
  sent (trace (after (get_aurora_vision_data g service settings ts) w)) =
    (sent (trace w) ++ [query_request settings ts token])%list /\
  calls (trace (after (get_aurora_vision_data g service settings ts) w)) =
    calls (trace w) /\
  environ (after (get_aurora_vision_data g service settings ts) w) = environ w /\
  outcome (get_aurora_vision_data g service settings ts) w =
    decode_and_process g
      (service (sent (trace w)) (query_request settings ts token)).
Proof.
  intros Hos Hhttp Henv Hne Hconn Hreq Htr Hst. unfold after, outcome.
  rewrite (get_aurora_vision_data_cached g service settings ts w token Hos Henv Hne).
  rewrite (query_with_token_accepted g service settings ts w token
             Hhttp Hconn Hreq Htr Hst).
  cbn [fst snd trace environ]. rewrite sent_app, calls_app. cbn [sent calls].
  repeat split; try reflexivity. lia.
Qed.

Lemma cached_token_single_request_witness :
  trace (after (get_aurora_vision_data module_globals (vendor refuses)
                  demo_settings demo_day) fresh_token) =
    [ Send (query_request demo_settings demo_day "fresh") ] /\
  outcome (get_aurora_vision_data module_globals (vendor refuses)
             demo_settings demo_day) fresh_token =
    Ok (mk_DataFrame
          [ mk_record (mk_datetime 2024 1 1 0 0 0 0 (Some utc)) 10%float ]).
Proof.
  destruct (cached_token_single_request module_globals (vendor refuses)
              demo_settings demo_day fresh_token "fresh")
    as (Htrace & _ & _ & _ & Hout);
    [reflexivity|reflexivity|reflexivity|discriminate
    |reflexivity|reflexivity|reflexivity|reflexivity|].
  split; [exact Htrace|]. rewrite Hout. vm_compute. reflexivity.
Defined.

(** C9. When the token slot holds the empty string, the fetch is the
    authenticator run on the world as found, followed by the query with the
    token it returns, exactly as when the slot is absent
    ([get_aurora_vision_data_uncached]): the first event the fetch adds is
    the authenticator's, so it comes before any production query. *)
Theorem empty_token_authenticates_first (g : list string) (service : Service)
    (settings : Settings) (ts : Timestamp) (w : World) :
  bound g "os" = true -> bound g "authenticate_aurora" = true ->
  environ w !! token_key = Some "" ->
  get_aurora_vision_data g service settings ts w =
    (authenticate_aurora g service settings
       ≫= query_with_token g service settings ts) w /\
  exists evs,
    trace (after (get_aurora_vision_data g service settings ts) w) =
      (trace w ++ Authenticate :: evs)%list.
Proof.
  intros Hos Hauth Henv.
  assert (Hrun : get_aurora_vision_data g service settings ts w =
                 (authenticate_aurora g service settings
                    ≫= query_with_token g service settings ts) w).
  { apply get_aurora_vision_data_uncached; [assumption..|]. now rewrite Henv. }
  split; [exact Hrun|]. unfold after. rewrite Hrun, run_bind.
  destruct (authenticate_aurora_starts g service settings w) as [evs Hevs].
  destruct (authenticate_aurora g service settings w) as [[token|e] w1];
    cbn [snd] in Hevs.
  - destruct (grows_query_with_token g service settings ts token w1) as [evs' Hevs'].
    exists (evs ++ evs')%list. rewrite Hevs', Hevs, <- app_assoc. reflexivity.
  - now exists evs.
Qed.

Lemma empty_token_authenticates_first_witness :
  exists evs,
    trace (after (get_aurora_vision_data module_globals (vendor grants_fresh)
                    demo_settings demo_day) empty_token) =
      Authenticate :: evs.
Proof.
  destruct (empty_token_authenticates_first module_globals (vendor grants_fresh)
              demo_settings demo_day empty_token)
    as (_ & evs & Hevs); [reflexivity|reflexivity|reflexivity|].
  exists evs. exact Hevs.
Defined.

(** * Further properties of the transformation *)

Lemma comprehension_ok_inv {A B : Type} (f : A -> result B) (xs : list A)
    (ys : list B) :
  comprehension f xs = Ok ys -> Forall2 (fun x y => f x = Ok y) xs ys.
Proof.
  revert ys. induction xs as [|x xs IH]; intros ys H; simpl in H.
  - injection H as <-. constructor.
  - destruct (f x) as [y|e] eqn:Hx; [|discriminate].
    destruct (comprehension f xs) as [ys0|e]; [|discriminate].
    injection H as <-. constructor; [exact Hx|now apply IH].
Qed.

Lemma process_aurora_data_ok_inv (data_json : json) (df : DataFrame) :
  process_aurora_data module_globals data_json = Ok df ->
  exists v entries,
    py_get data_json "result" (JArr []) = Ok v /\ py_iter v = Ok entries /\
    comprehension (record_of_entry module_globals) entries = Ok (rows_of df).
Proof.
  rewrite process_aurora_data_module. intros H.
  destruct (py_get data_json "result" (JArr [])) as [v|e]; [|discriminate].
  cbn [mbind result_bind] in H.
  destruct (py_iter v) as [entries|e] eqn:Hi; [|discriminate].
  cbn [mbind result_bind] in H.
  destruct (comprehension (record_of_entry module_globals) entries) as [rs|e] eqn:Hc;
    [|discriminate].
  injection H as <-. exists v, entries.
  split; [reflexivity|split; [exact Hi|exact Hc]].
Qed.

(** X1. A table is returned only when every entry of the list is accepted:
    it then has one row per entry, row i being the record of entry i. *)
Theorem table_rows_are_entry_records (payload : list (string * json))
    (entries : list json) (df : DataFrame) :
  dict_get "result" payload = Some (JArr entries) ->
  process_aurora_data module_globals (JObj payload) = Ok df ->
  length (rows_of df) = length entries /\
  Forall2 (fun e r => record_of_entry module_globals e = Ok r)
          entries (rows_of df).
Proof.
  intros Hres Hdf.
  rewrite (process_aurora_data_list payload entries Hres) in Hdf.
  destruct (comprehension (record_of_entry module_globals) entries) as [rs|e] eqn:Hc;
    [|discriminate].
  injection Hdf as <-. cbn [rows_of].
  pose proof (comprehension_ok_inv _ _ _ Hc) as Hall.
  split; [symmetry; eapply Forall2_length; exact Hall|exact Hall].
Qed.

Lemma table_rows_are_entry_records_witness :
  length (rows_of (mk_DataFrame
            [ mk_record (mk_datetime 2024 1 1 0 0 0 0 (Some utc)) 10%float ])) =
    length [JObj [("date", JStr "20240101"); ("dailyProduction", JInt 240)]].
Proof.
  refine (proj1 (table_rows_are_entry_records
    [("result", JArr [JObj [("date", JStr "20240101"); ("dailyProduction", JInt 240)]])]
    [JObj [("date", JStr "20240101"); ("dailyProduction", JInt 240)]]
    (mk_DataFrame [ mk_record (mk_datetime 2024 1 1 0 0 0 0 (Some utc)) 10%float ])
    _ _)); vm_compute; reflexivity.
Defined.

(** X2. The entries are transformed from left to right and the first one
    that raises ends the transformation with its exception, of whatever
    kind; the entries after it are not looked at. *)
Theorem first_failing_entry_decides (payload : list (string * json))
    (pre post : list json) (entry : json) (rs : list record) (err : exn) :
  dict_get "result" payload = Some (JArr (pre ++ entry :: post)) ->
  comprehension (record_of_entry module_globals) pre = Ok rs ->
  record_of_entry module_globals entry = Raise err ->
  process_aurora_data module_globals (JObj payload) = Raise err.
Proof.
  intros Hres Hpre He. rewrite (process_aurora_data_list payload _ Hres).
  now rewrite (comprehension_first_failure _ pre post entry rs err Hpre He).
Qed.

Lemma first_failing_entry_decides_witness :
  process_aurora_data module_globals
    (JObj [("result",
            JArr [ JObj [("date", JStr "20240101")];
                   JObj [("date", JStr "20240102"); ("dailyProduction", JStr "n/a")];
                   JNull ])]) = Raise TypeError.
Proof.
  apply (first_failing_entry_decides _
           [JObj [("date", JStr "20240101")]] [JNull]
           (JObj [("date", JStr "20240102"); ("dailyProduction", JStr "n/a")])
           [mk_record (mk_datetime 2024 1 1 0 0 0 0 (Some utc)) 0%float]);
    vm_compute; reflexivity.
Defined.

(** X3. A [result] that is [null], a bool or a number is not iterable: the
    transformation raises [TypeError], where a missing [result] gives the
    empty table. *)
Theorem scalar_result_raises (payload : list (string * json)) (v : json) :
  dict_get "result" payload = Some v ->
  is_scalar v = true ->
  process_aurora_data module_globals (JObj payload) = Raise TypeError.
Proof.
  intros Hres Hv. rewrite process_aurora_data_module. unfold py_get.
  rewrite Hres. now destruct v.
Qed.

Lemma scalar_result_raises_witness :
  process_aurora_data module_globals (JObj [("result", JNull)]) = Raise TypeError.
Proof.
  apply (scalar_result_raises [("result", JNull)] JNull); reflexivity.
Defined.

(** X4. A [result] that is a dict is iterated over its keys, and a key has
    no ["date"]: the transformation raises [TypeError] unless the dict is
    empty, in which case the table is empty. *)
Theorem dict_result_keys (payload fields : list (string * json)) :
  dict_get "result" payload = Some (JObj fields) ->
  process_aurora_data module_globals (JObj payload) =
    match fields with
    | [] => Ok (mk_DataFrame [])
    | _ :: _ => Raise TypeError
    end.
Proof.
  intros Hres. rewrite process_aurora_data_module. unfold py_get.
  rewrite Hres. now destruct fields as [|[k v] rest].
Qed.

Lemma dict_result_keys_witness :
  process_aurora_data module_globals
    (JObj [("result", JObj [("date", JStr "20240101")])]) = Raise TypeError.
Proof.
  apply (dict_result_keys [("result", JObj [("date", JStr "20240101")])]
           [("date", JStr "20240101")]).
  reflexivity.
Defined.

(** X5. A [result] that is a string is iterated over its characters: the
    transformation raises [TypeError] unless the string is empty, in which
    case the table is empty. *)
Theorem string_result_characters (payload : list (string * json)) (s : string) :
  dict_get "result" payload = Some (JStr s) ->
  process_aurora_data module_globals (JObj payload) =
    match s with
    | EmptyString => Ok (mk_DataFrame [])
    | String _ _ => Raise TypeError
    end.
Proof.
  intros Hres. rewrite process_aurora_data_module. unfold py_get.
  rewrite Hres. now destruct s.
Qed.

Lemma string_result_characters_witness :
  process_aurora_data module_globals (JObj [("result", JStr "error")]) =
    Raise TypeError.
Proof.
  apply (string_result_characters [("result", JStr "error")] "error").
  reflexivity.
Defined.

(** X6. A decoded payload that is not a JSON object (a list, a string, a
    number, [null]) has no [get]: the transformation raises
    [AttributeError]. *)
Theorem non_object_payload_raises (data_json : json) :
  (forall fields, data_json <> JObj fields) ->
  process_aurora_data module_globals data_json = Raise AttributeError.
Proof.
  intros Hno. rewrite process_aurora_data_module.
  destruct data_json; try reflexivity. now destruct (Hno fields).
Qed.

Lemma non_object_payload_raises_witness :
  process_aurora_data module_globals
    (JArr [JObj [("date", JStr "20240101")]]) = Raise AttributeError.
Proof.
  apply (non_object_payload_raises (JArr [JObj [("date", JStr "20240101")]])).
  intros fields. discriminate.
Defined.

Lemma strptime_Ymd_fields (s : string) (d : datetime) :
  strptime_Ymd s = Ok d ->
  valid_date (year d) (month d) (day d) = true /\
  hour d = 0 /\ minute d = 0 /\ second d = 0 /\ microsecond d = 0 /\
  tzinfo d = None.
Proof.
  unfold strptime_Ymd.
  destruct (match_groups [re_Y; re_m; re_d] (list_ascii_of_string s))
    as [[[|ty [|tm [|td [|]]]] [|]]|]; try discriminate.
  destruct (valid_date (int_of ty) (int_of tm) (int_of td)) eqn:Hv;
    [|discriminate].
  intros H. injection H as <-. cbn. now rewrite Hv.
Qed.

Lemma record_of_entry_utc_midnight (entry : json) (r : record) :
  record_of_entry module_globals entry = Ok r -> utc_midnight (timestamp r).
Proof.
  rewrite record_of_entry_module.
  destruct (py_subscript entry "date") as [date|e]; [|discriminate].
  cbn [mbind result_bind].
  destruct (strptime date) as [parsed|e] eqn:Hparse; [|discriminate].
  cbn [mbind result_bind].
  destruct (py_get entry "dailyProduction" (JInt 0)) as [production|e];
    [|discriminate].
  cbn [mbind result_bind].
  destruct (truediv_24 production) as [power|e]; [|discriminate].
  cbn [mbind result_bind]. intros H. injection H as <-.
  destruct date; try discriminate. cbn [strptime] in Hparse.
  destruct (strptime_Ymd_fields _ _ Hparse) as (Hv & Hh & Hm & Hs & Hu & _).
  unfold utc_midnight.
  cbn [timestamp replace_tzinfo year month day hour minute second microsecond tzinfo].
  repeat split; assumption.
Qed.

(** X7. Every row of every table the transformation returns is stamped
    with a calendar day that exists (year 1 to 9999, month 1 to 12, a day
    of that month), at 00:00:00.000000, in UTC. *)
Theorem rows_are_utc_midnights (data_json : json) (df : DataFrame) :
  process_aurora_data module_globals data_json = Ok df ->
  Forall (fun r => utc_midnight (timestamp r)) (rows_of df).
Proof.
  intros H.
  destruct (process_aurora_data_ok_inv data_json df H) as (v & entries & _ & _ & Hc).
  apply comprehension_ok_inv in Hc.
  induction Hc as [|e r es rs He _ IH]; constructor; [|exact IH].
  now apply (record_of_entry_utc_midnight e).
Qed.

Lemma rows_are_utc_midnights_witness :
  Forall (fun r => utc_midnight (timestamp r))
    [ mk_record (mk_datetime 2024 1 1 0 0 0 0 (Some utc)) 10%float ].
Proof.
  apply (rows_are_utc_midnights sample
           (mk_DataFrame
              [ mk_record (mk_datetime 2024 1 1 0 0 0 0 (Some utc)) 10%float ])).
  vm_compute. reflexivity.
Defined.

Lemma length_list_ascii_of_string (s : string) :
  length (list_ascii_of_string s) = String.length s.
Proof. induction s as [|c s IH]; simpl; [reflexivity|now rewrite IH]. Qed.

Ltac split_class_in H :=
  repeat match type of H with
         | context [in_class ?cl ?c] =>
             destruct (in_class cl c); cbv beta iota in H
         end.

(** The text [strptime] accepts is four digits, then one or two characters
    for the month and one or two for the day. *)
Lemma strptime_Ymd_length (s : string) (d : datetime) :
  strptime_Ymd s = Ok d -> (6 <= String.length s <= 8)%nat.
Proof.
  unfold strptime_Ymd. rewrite <- length_list_ascii_of_string.
  destruct (list_ascii_of_string s)
    as [|c1 [|c2 [|c3 [|c4 [|c5 [|c6 [|c7 [|c8 [|c9 rest]]]]]]]]];
    cbn [length]; try lia;
    cbn [match_groups match_alt re_Y re_m re_d]; intros H;
    split_class_in H; discriminate H.
Qed.

(** X8. A [date] string shorter than six or longer than eight characters is
    never accepted: the entry raises [ValueError]. *)
Theorem date_of_wrong_length_raises (fields : list (string * json)) (s : string) :
  dict_get "date" fields = Some (JStr s) ->
  (String.length s < 6 \/ 8 < String.length s)%nat ->
  record_of_entry module_globals (JObj fields) = Raise ValueError.
Proof.
  intros Hdate Hlen. rewrite record_of_entry_module.
  unfold py_subscript. rewrite Hdate. cbn [mbind result_bind strptime].
  destruct (strptime_Ymd s) as [d|e] eqn:Hs.
  - apply strptime_Ymd_length in Hs. lia.
  - now rewrite (strptime_Ymd_raises s e Hs).
Qed.

Lemma date_of_wrong_length_raises_witness :
  record_of_entry module_globals (JObj [("date", JStr "2024-01-01")]) =
    Raise ValueError.
Proof.
  apply (date_of_wrong_length_raises [("date", JStr "2024-01-01")] "2024-01-01");
    [reflexivity|right; vm_compute; lia].
Defined.

(** X9. With an accepted date, a [dailyProduction] that is [null], a
    string, a list or a dict cannot be divided: the entry raises
    [TypeError]; only an absent field defaults to zero. *)
Theorem undividable_production_raises (fields : list (string * json))
    (s : string) (d : datetime) (v : json) :
  dict_get "date" fields = Some (JStr s) ->
  strptime_Ymd s = Ok d ->
  dict_get "dailyProduction" fields = Some v ->
  not_dividable v = true ->
  record_of_entry module_globals (JObj fields) = Raise TypeError.
Proof.
  intros Hdate Hparse Hprod Hv. rewrite record_of_entry_module.
  unfold py_subscript, py_get. rewrite Hdate, Hprod.
  cbn [mbind result_bind strptime]. rewrite Hparse.
  cbn [mbind result_bind]. now destruct v.
Qed.

Lemma undividable_production_raises_witness :
  record_of_entry module_globals
    (JObj [("date", JStr "20240101"); ("dailyProduction", JNull)]) =
    Raise TypeError.
Proof.
  apply (undividable_production_raises
           [("date", JStr "20240101"); ("dailyProduction", JNull)]
           "20240101" (mk_datetime 2024 1 1 0 0 0 0 None) JNull);
    vm_compute; reflexivity.
Defined.

(** X10. Tables concatenate: when the entries of two payloads are both
    transformed, a payload holding the first list followed by the second
    is transformed into the first table followed by the second. *)
Theorem tables_concatenate (p1 p2 p : list (string * json))
    (xs ys : list json) (df1 df2 : DataFrame) :
  dict_get "result" p1 = Some (JArr xs) ->
  dict_get "result" p2 = Some (JArr ys) ->
  dict_get "result" p = Some (JArr (xs ++ ys)) ->
  process_aurora_data module_globals (JObj p1) = Ok df1 ->
  process_aurora_data module_globals (JObj p2) = Ok df2 ->
  process_aurora_data module_globals (JObj p) =
    Ok (mk_DataFrame (rows_of df1 ++ rows_of df2)).
Proof.
  intros H1 H2 H Hdf1 Hdf2.
  rewrite (process_aurora_data_list p1 xs H1) in Hdf1.
  rewrite (process_aurora_data_list p2 ys H2) in Hdf2.
  rewrite (process_aurora_data_list p _ H).
  destruct (comprehension (record_of_entry module_globals) xs) as [r1|e] eqn:Hx;
    [|discriminate].
  destruct (comprehension (record_of_entry module_globals) ys) as [r2|e] eqn:Hy;
    [|discriminate].
  injection Hdf1 as <-. injection Hdf2 as <-.
  rewrite (comprehension_app _ xs ys r1 Hx), Hy. reflexivity.
Qed.

Lemma tables_concatenate_witness :
  process_aurora_data module_globals
    (JObj [("result", JArr [ JObj [("date", JStr "20240101")];
                             JObj [("date", JStr "20240102")] ])]) =
    Ok (mk_DataFrame
          [ mk_record (mk_datetime 2024 1 1 0 0 0 0 (Some utc)) 0%float;
            mk_record (mk_datetime 2024 1 2 0 0 0 0 (Some utc)) 0%float ]).
Proof.
  apply (tables_concatenate
           [("result", JArr [JObj [("date", JStr "20240101")]])]
           [("result", JArr [JObj [("date", JStr "20240102")]])]
           [("result", JArr [ JObj [("date", JStr "20240101")];
                              JObj [("date", JStr "20240102")] ])]
           [JObj [("date", JStr "20240101")]] [JObj [("date", JStr "20240102")]]
           (mk_DataFrame [mk_record (mk_datetime 2024 1 1 0 0 0 0 (Some utc)) 0%float])
           (mk_DataFrame [mk_record (mk_datetime 2024 1 2 0 0 0 0 (Some utc)) 0%float]));
    vm_compute; reflexivity.
Defined.

(** * Further properties of the authenticator and the fetcher *)





(** X13. With a non-empty token cached, a connection that can be built and
    a query that [http.client] accepts to send and the transport delivers,
    an answer that is neither 200 nor 401 is raised at once as ["Failed to fetch data: HTTP <status>"],
    from which the status can be read back: one request has gone out, the
    authenticator is not entered and [os.environ] is untouched. *)
Theorem other_status_raised_at_once (g : list string) (service : Service)
    (settings : Settings) (ts : Timestamp) (w : World) (token : string) :
  bound g "os" = true -> bound g "http" = true ->
  environ w !! token_key = Some token -> token <> "" ->
  connection_refusal w = None ->
  request_refusal (query_request settings ts token) = None ->
  transport w (sent (trace w)) (query_request settings ts token) = None ->
  status (service (sent (trace w)) (query_request settings ts token)) <> 200 ->
  status (service (sent (trace w)) (query_request settings ts token)) <> 401 ->
  outcome (get_aurora_vision_data g service settings ts) w =
    Raise (fetch_failed
             (status (service (sent (trace w)) (query_request settings ts token)))) /\
  trace (after (get_aurora_vision_data g service settings ts) w) =
    (trace w ++ [Send (query_request settings ts token)])%list /\
  environ (after (get_aurora_vision_data g service settings ts) w) = environ w /\
  forall st,
    fetch_failed st =
      fetch_failed (status (service (sent (trace w))
                              (query_request settings ts token))) ->
    st = status (service (sent (trace w)) (query_request settings ts token)).
Proof.
  intros Hos Hhttp Henv Hne Hconn Hreq Htr H200 H401. unfold outcome, after.
  rewrite (get_aurora_vision_data_cached g service settings ts w token Hos Henv Hne).
  unfold query_with_token. rewrite run_load_global by exact Hhttp.
  rewrite run_HTTPSConnection, Hconn.
  rewrite (run_exchange _ _ _ _ Hreq Htr).
  apply Z.eqb_neq in H200, H401. rewrite H401.
  rewrite run_bind. cbn [mret M_ret]. rewrite H200. cbn [negb raise lift fst snd].
  repeat split. intros st Hst. now apply fetch_failed_inj.
Qed.

Lemma other_status_raised_at_once_witness :
  outcome (get_aurora_vision_data module_globals unavailable
             demo_settings demo_day) fresh_token =
    Raise (Exception_ "Failed to fetch data: HTTP 503").
Proof.
  refine (proj1 (other_status_raised_at_once module_globals unavailable
                   demo_settings demo_day fresh_token "fresh"
                   _ _ _ _ _ _ _ _ _));
    try reflexivity; discriminate.
Defined.

(** A query that cannot be sent, or a connection that cannot be built,
    ends the fetch before anything goes out. *)
Lemma query_with_token_refused (g : list string) (service : Service)
    (settings : Settings) (ts : Timestamp) (w : World) (token : string)
    (e : exn) :
  bound g "http" = true ->
  connection_refusal w = Some e \/
  (connection_refusal w = None /\
   request_refusal (query_request settings ts token) = Some e) ->
  query_with_token g service settings ts token w = (Raise e, w).
Proof.
  intros Hhttp H. unfold query_with_token.
  rewrite run_load_global by exact Hhttp. rewrite run_HTTPSConnection.
  destruct H as [-> | [-> Hreq]]; [reflexivity|].
  rewrite run_bind. unfold exchange. now rewrite Hreq.
Qed.

Example space_in_plant_id :
  get_aurora_vision_data module_globals (vendor refuses)
    (mk_Settings "key" "user" "pass" "p 1") demo_day fresh_token =
    (Raise InvalidURL, fresh_token).
Proof. vm_compute. reflexivity. Qed.

Example key_log_in_missing_directory :
  get_aurora_vision_data module_globals (vendor refuses)
    demo_settings demo_day bad_keylog =
    (Raise FileNotFoundError, bad_keylog).
Proof. vm_compute. reflexivity. Qed.

(** X14. Whatever the namespace, the service, the cache and the answers,
    one fetch sends the production query at most twice and enters the
    authenticator at most twice. *)
Theorem fetch_at_most_two_queries_two_calls (g : list string)
    (service : Service) (settings : Settings) (ts : Timestamp) (w : World) :
  exists evs,
    trace (after (get_aurora_vision_data g service settings ts) w) =
      (trace w ++ evs)%list /\
    (length (filter (is_query settings ts) evs) <= 2)%nat /\
    (length (filter is_call evs) <= 2)%nat.
Proof.
  destruct (get_aurora_vision_data_two_queries g service settings ts w)
    as (evs & Hevs & Hq).
  destruct (get_aurora_vision_data_two_calls g service settings ts w)
    as (evs' & Hevs' & Hc).
  exists evs. unfold after. split; [exact Hevs|]. split; [exact Hq|].
  rewrite Hevs in Hevs'. apply app_inv_head in Hevs'. now subst evs'.
Qed.

(** From the query on, in the module as shipped: at most the one request
    goes out, and [os.environ] is not written. *)
Lemma query_with_token_shipped (service : Service) (settings : Settings)
    (ts : Timestamp) (w : World) (token : string) :
  exists evs,
    (query_with_token module_globals service settings ts token w).2 =
      Build_World (environ w) (trace w ++ evs) (keylog w) (transport w) /\
    (length (sent evs) <= 1)%nat.
Proof.
  unfold query_with_token. rewrite run_load_global by reflexivity.
  rewrite run_HTTPSConnection.
  destruct (connection_refusal w) as [e|] eqn:Hconn.
  { exists []. rewrite app_nil_r. split; [now destruct w|simpl; lia]. }
  rewrite run_bind. unfold exchange.
  destruct (request_refusal (query_request settings ts token)) as [e|].
  { exists []. rewrite app_nil_r. split; [now destruct w|simpl; lia]. }
  destruct (transport w (sent (trace w)) (query_request settings ts token))
    as [e|].
  { exists [Send (query_request settings ts token)].
    split; [reflexivity|simpl; lia]. }
  destruct (status (service (sent (trace w)) (query_request settings ts token))
            =? 401) eqn:H401.
  - rewrite run_bind. rewrite run_load_global by reflexivity.
    rewrite run_bind, authenticate_aurora_shipped.
    cbn [environ trace keylog transport snd].
    exists [Send (query_request settings ts token); Authenticate].
    rewrite <- app_assoc. split; [reflexivity|simpl; lia].
  - rewrite run_bind. cbn [mret M_ret].
    exists [Send (query_request settings ts token)].
    split; [|simpl; lia].
    destruct (negb (status (service (sent (trace w))
                              (query_request settings ts token)) =? 200)).
    + reflexivity.
    + now rewrite run_decode_and_process.
Qed.

(** X15. In the module as shipped a fetch never writes [os.environ] and
    never sends more than one request, whatever the service answers: the
    renewal of lines 82-86 cannot take place. *)
Theorem fetch_one_request_no_write_shipped (service : Service)
    (settings : Settings) (ts : Timestamp) (w : World) :
  environ (after (get_aurora_vision_data module_globals service settings ts) w) =
    environ w /\
  (length (sent (trace (after (get_aurora_vision_data module_globals service
                                 settings ts) w)))
   <= length (sent (trace w)) + 1)%nat.
Proof.
  unfold after.
  destruct (falsy (environ w !! token_key)) eqn:Hf.
  - rewrite get_aurora_vision_data_uncached by (reflexivity || exact Hf).
    rewrite run_bind, authenticate_aurora_shipped.
    cbn [snd environ trace]. rewrite sent_after_call. split; [reflexivity|lia].
  - destruct (environ w !! token_key) as [token|] eqn:Henv; [|discriminate].
    assert (Hne : token <> "").
    { intros ->. discriminate. }
    rewrite (get_aurora_vision_data_cached module_globals service settings ts w
               token eq_refl Henv Hne).
    destruct (query_with_token_shipped service settings ts w token)
      as (evs & -> & Hevs).
    cbn [environ trace]. rewrite sent_app, length_app.
    split; [reflexivity|lia].
Qed.

(** ** What the fetch reads and writes *)

Lemma agree_refl (w : World) : agree w w.
Proof. now repeat split. Qed.















Lemma frames_bind (key : string) {A B : Type} (m : M A) (k : A -> M B) :
  frames key m -> (forall a, frames key (k a)) -> frames key (m ≫= k).
Proof.
  intros Hm Hk w. rewrite run_bind. pose proof (Hm w) as H.
  destruct (m w) as [[a|e] w1]; cbn [snd] in *.
  - now rewrite Hk.
  - exact H.
Qed.

Lemma frames_lift (key : string) {A : Type} (r : result A) : frames key (lift r).
Proof. intros w. reflexivity. Qed.

Lemma frames_mret (key : string) {A : Type} (a : A) : frames key (mret a : M A).
Proof. intros w. reflexivity. Qed.

Lemma frames_log (key : string) (e : Event) : frames key (log e).
Proof. intros w. reflexivity. Qed.

Lemma frames_getenv (key key' : string) : frames key (getenv key').
Proof. intros w. reflexivity. Qed.

Lemma frames_HTTPSConnection (key : string) : frames key HTTPSConnection.
Proof. intros w. unfold HTTPSConnection. now destruct (connection_refusal w). Qed.

Lemma frames_exchange (key : string) (service : Service) (req : Request) :
  frames key (exchange service req).
Proof. intros w. unfold exchange. now destruct (request_refusal req). Qed.

Lemma frames_exchange_again (key : string) (service : Service)
    (prev : Response) (req : Request) :
  frames key (exchange_again service prev req).
Proof. intros w. unfold exchange_again. now destruct (request_refusal req). Qed.

Lemma frames_environ_setitem (key : string) (v : json) :
  key <> token_key -> frames key (environ_setitem token_key v).
Proof.
  intros Hne w. destruct v; try reflexivity.
  cbn [environ_setitem]. destruct (has_null s); [reflexivity|].
  cbn [snd environ]. now apply lookup_insert_ne.
Qed.

Ltac frames_step Hne :=
  first [ apply frames_bind; [|intros ?]
        | match goal with |- frames _ (if ?b then _ else _) => destruct b end
        | apply frames_lift | apply frames_mret | apply frames_log
        | apply frames_getenv | apply frames_HTTPSConnection
        | apply frames_exchange | apply frames_exchange_again
        | apply (frames_environ_setitem _ _ Hne) ].

Lemma frames_authenticate_aurora (key : string) (g : list string)
    (service : Service) (settings : Settings) :
  key <> token_key -> frames key (authenticate_aurora g service settings).
Proof. intros Hne. unfold authenticate_aurora, raise. repeat frames_step Hne. Qed.

(** X17. The only environment variable a fetch can change is
    [AURORA_ACCESS_TOKEN]: every other variable has, after the fetch, the
    value it had before, whatever the namespace and the service. *)
Theorem fetch_writes_only_the_token (key : string) (g : list string)
    (service : Service) (settings : Settings) (ts : Timestamp) (w : World) :
  key <> token_key ->
  environ (after (get_aurora_vision_data g service settings ts) w) !! key =
    environ w !! key.
Proof.
  intros Hne. unfold after. revert w.
  change (frames key (get_aurora_vision_data g service settings ts)).
  unfold get_aurora_vision_data, query_with_token, raise.
  repeat (frames_step Hne || apply (frames_authenticate_aurora _ _ _ _ Hne)).
Qed.

Lemma fetch_writes_only_the_token_witness :
  environ (after (get_aurora_vision_data module_globals (vendor grants_fresh)
                    demo_settings demo_day)
                 (mk_World {[ token_key := "stale"; "HOME" := "/root" ]} []))
    !! "HOME" = Some "/root".
Proof.
  rewrite (fetch_writes_only_the_token "HOME" module_globals
             (vendor grants_fresh) demo_settings demo_day
             (mk_World {[ token_key := "stale"; "HOME" := "/root" ]} []));
    [vm_compute; reflexivity|discriminate].
Defined.
